(** * Shop API: request validation, filter translation and identifier
      normalisation over a document store

    A shallow embedding of [main.py] (the route handlers) and [schemas.py]
    (the pydantic record definitions).  Python values are an inductive type,
    dicts are [gmap string _], floats are binary64 ([PrimFloat.float]), and
    the handlers run in a state-and-exception monad over a [World] that holds
    the module-level store handle [db], the process environment and a trace of
    the calls made to the store accessor. *)

From Stdlib Require Import ZArith Floats String Ascii List.
From stdpp Require Import gmap strings list fin_maps.

Set Warnings "-register-all,-inexact-float".
Local Open Scope string_scope.

(** ** Python values *)

(** The values that travel through the gateway: decoded JSON bodies, stored
    documents and response payloads.  [VObjectId] is the store-native
    identifier. *)
Inductive value :=
| VNone
| VBool (b : bool)
| VInt (z : Z)
| VFloat (f : float)
| VStr (s : string)
| VObjectId (o : N)
| VList (l : list value)
| VDict (m : gmap string value).

(** A stored (or returned) document is a Python [dict] with string keys. *)
Abbreviation document := (gmap string value).

(** Whether the framework can write a value into a JSON response.  The
    response classes serialise with [json.dumps(..., allow_nan=False)], which
    refuses [nan] and the infinities, and the encoder before it has no
    encoding for a store identifier. *)
Fixpoint renderable (v : value) : bool :=
  match v with
  | VNone | VBool _ | VInt _ | VStr _ => true
  | VFloat f => is_finite f
  | VObjectId _ => false
  | VList l => forallb renderable l
  | VDict m => map_fold (λ _ v rest, renderable v && rest) true m
  end.

(** ** Exceptions and HTTP status *)

(** An exception object other than the two that FastAPI treats specially:
    its class name and its [str()]. *)
Record PyException := Exc { exc_class : string; exc_str : string }.

Inductive loc_item := Key (k : string) | Idx (i : nat).

Inductive error_type :=
| missing | string_type | float_type | int_type | bool_type
| list_type | model_type | greater_than_equal.

(** One entry of a pydantic validation error: where, what, and the input
    that was refused. *)
Record error_details :=
  ErrorDetails { loc : list loc_item; type : error_type; input : value }.

Inductive exception :=
| RequestValidationError (errors : list error_details)
| HTTPException (status_code : Z) (detail : string)
| Other (e : PyException).

(** What the code uses from the Python runtime, pydantic and the store's
    pattern engine without defining it.  These are taken as parameters:
    - [py_str] is the builtin [str] on values, and [str_framework] the
      [str] of the two exception classes of the web framework;
    - [is_instance e C] is [isinstance(e, C)] for an exception [e] and the
      name [C] of an exception class: the class hierarchy of the running
      program;
    - [lax_float], [lax_int], [lax_bool] are pydantic's coercions of an input
      that is not already of the declared type ([None] when there is none);
    - [pcre] is the store's regular-expression engine on the patterns that
      [parse_plain] below does not cover: [None] when the store rejects the
      pattern, otherwise the search predicate on subject strings. *)
Class Platform := {
  py_str : value → string;
  str_framework : exception → string;
  is_instance : PyException → string → bool;
  lax_float : value → option float;
  lax_int : value → option Z;
  lax_bool : value → option bool;
  pcre : string → string → option (string → bool);
}.

Inductive outcome (A : Type) :=
| Returns (a : A)
| Raises (e : exception).
Arguments Returns {A} a.
Arguments Raises {A} e.

(** FastAPI's mapping of a handler outcome to the response status: a returned
    value is a 200, a request validation error a 422 whose body lists the
    errors with their inputs, an [HTTPException] its own code, and any other
    exception the 500 of the server-error middleware.  A 200 or a 422 whose
    body cannot be written as JSON fails while it is rendered, which is one
    more exception that nothing handles: a 500. *)
Definition status_of (o : outcome document) : Z :=
  match o with
  | Returns response => if renderable (VDict response) then 200 else 500
  | Raises (RequestValidationError errors) =>
      if forallb (λ e, renderable (input e)) errors then 422 else 500
  | Raises (HTTPException c _) => c
  | Raises (Other _) => 500
  end%Z.

(** ** pydantic validation *)

Inductive validated (A : Type) :=
| Valid (a : A)
| Invalid (errors : list error_details).
Arguments Valid {A} a.
Arguments Invalid {A} errors.

(** An error at the place that is being validated, on the input [v]. *)
Definition here (t : error_type) (v : value) : list error_details :=
  [ErrorDetails [] t v].

(** Prefix the location of every error with [i]. *)
Definition at_loc {A} (i : loc_item) (r : validated A) : validated A :=
  match r with
  | Valid a => Valid a
  | Invalid es => Invalid (map (λ e, ErrorDetails (i :: loc e) (type e) (input e)) es)
  end.

(** Fields are validated independently and all errors are reported. *)
Definition ap {A B} (f : validated (A → B)) (x : validated A) : validated B :=
  match f, x with
  | Valid g, Valid a => Valid (g a)
  | Valid _, Invalid e => Invalid e
  | Invalid e, Valid _ => Invalid e
  | Invalid e1, Invalid e2 => Invalid (e1 ++ e2)
  end.
Infix "<*>" := ap (at level 61, left associativity).

(** The validation result [r] is a failure that reports [e]. *)
Definition reports {A} (e : error_details) (r : validated A) : Prop :=
  ∃ errors, r = Invalid errors ∧ e ∈ errors.

(** Where the errors are and of what type, without the inputs they quote. *)
Definition kinds (errors : list error_details) : list (list loc_item * error_type) :=
  (λ e, (loc e, type e)) <$> errors.

(** Two validation results agree: the same value, or errors at the same
    places and of the same types. *)
Definition same_verdict {A} (r r' : validated A) : Prop :=
  match r, r' with
  | Valid a, Valid a' => a = a'
  | Invalid errors, Invalid errors' => kinds errors = kinds errors'
  | _, _ => False
  end.

Definition ge_float (bound f : float) : bool := (bound <=? f)%float.
Definition ge_int (bound z : Z) : bool := (bound <=? z)%Z.

(** ** schemas.py: the records *)

(** [BaseModel.model_dump]: the record as a dict. *)
Class Model (A : Type) := model_dump : A → document.

Definition dump_optional_str (o : option string) : value :=
  match o with Some s => VStr s | None => VNone end.

Module Category.
Record t := Build { name : string; slug : string }.
End Category.

#[export] Instance Category_Model : Model Category.t := λ c,
  {[ "name" := VStr (Category.name c); "slug" := VStr (Category.slug c) ]}.

Module Product.
Record t := Build {
    title : string;
    description : option string;
    price : float;
    category : string;
    brand : option string;
    image : option string;
    in_stock : bool;
  }.
End Product.

#[export] Instance Product_Model : Model Product.t := λ p,
  {[ "title" := VStr (Product.title p);
     "description" := dump_optional_str (Product.description p);
     "price" := VFloat (Product.price p);
     "category" := VStr (Product.category p);
     "brand" := dump_optional_str (Product.brand p);
     "image" := dump_optional_str (Product.image p);
     "in_stock" := VBool (Product.in_stock p) ]}.

Module OrderItem.
Record t := Build {
    product_id : string;
    title : string;
    price : float;
    quantity : Z;
  }.
End OrderItem.

#[export] Instance OrderItem_Model : Model OrderItem.t := λ i,
  {[ "product_id" := VStr (OrderItem.product_id i);
     "title" := VStr (OrderItem.title i);
     "price" := VFloat (OrderItem.price i);
     "quantity" := VInt (OrderItem.quantity i) ]}.

Module Order.
Record t := Build {
    user_email : string;
    shipping_address : string;
    payment_method : string;
    status : string;
    items : list OrderItem.t;
    total : float;
  }.
End Order.

#[export] Instance Order_Model : Model Order.t := λ o,
  {[ "user_email" := VStr (Order.user_email o);
     "shipping_address" := VStr (Order.shipping_address o);
     "payment_method" := VStr (Order.payment_method o);
     "status" := VStr (Order.status o);
     "items" := VList ((λ i, VDict (model_dump i)) <$> Order.items o);
     "total" := VFloat (Order.total o) ]}.

Module Wishlist.
Record t := Build { user_email : string; product_id : string }.
End Wishlist.

#[export] Instance Wishlist_Model : Model Wishlist.t := λ x,
  {[ "user_email" := VStr (Wishlist.user_email x);
     "product_id" := VStr (Wishlist.product_id x) ]}.

(** ** The store's filter language

    The handlers send the store a filter document: a dict from field names to
    conditions.  Three shapes of condition are ever built: a string (exact
    match), [{"$regex": q, "$options": "i"}] and the operator document of the
    price bounds, whose keys ["$gte"] and ["$lte"] are each present or not. *)

Record range_ops := RangeOps { op_gte : option float; op_lte : option float }.

Inductive condition :=
| Equals (v : string)
| Regex (pattern options : string)
| Range (ops : range_ops).

(** Python truthiness of the operator document: a dict is true when it has a
    key. *)
Definition range_nonempty (ops : range_ops) : bool :=
  match op_gte ops, op_lte ops with
  | None, None => false
  | _, _ => true
  end.

(** *** Patterns

    The store searches a string field for a pattern.  The part of its pattern
    language that is run here is the plain patterns: sequences of ordinary
    characters, which stand for themselves, and dots, which stand for any
    character but a newline; the search is unanchored.  Characters are
    8-bit, and the letters with a case are the ASCII ones.

    The characters that the pattern language gives a meaning of their own,
    and the NUL character, which a pattern cannot hold. *)
Definition metachar (c : ascii) : bool :=
  existsb (Ascii.eqb c) ("000"%char :: list_ascii_of_string "\^$.[]|()?*+{}").

Inductive atom := Lit (c : ascii) | AnyChar.

Definition parse_atom (c : ascii) : option atom :=
  if Ascii.eqb c "." then Some AnyChar
  else if metachar c then None
  else Some (Lit c).

(** A plain pattern is a sequence of ordinary characters and dots; [None] for
    a pattern with any other metacharacter. *)
Fixpoint parse_plain (pattern : string) : option (list atom) :=
  match pattern with
  | EmptyString => Some []
  | String c rest =>
      match parse_atom c, parse_plain rest with
      | Some a, Some p => Some (a :: p)
      | _, _ => None
      end
  end.

(** The options understood here: none, or ["i"] for caseless matching. *)
Definition parse_options (options : string) : option bool :=
  if String.eqb options "" then Some false
  else if String.eqb options "i" then Some true
  else None.

(** Case folding of the ASCII letters; other characters have no case. *)
Definition lower (c : ascii) : ascii :=
  let n := nat_of_ascii c in
  if (65 <=? n)%nat && (n <=? 90)%nat then ascii_of_nat (n + 32) else c.

Definition newline : ascii := "010"%char.

Definition atom_matches (caseless : bool) (a : atom) (c : ascii) : bool :=
  match a with
  | Lit x => if caseless then Ascii.eqb (lower x) (lower c) else Ascii.eqb x c
  | AnyChar => negb (Ascii.eqb c newline)
  end.

(** The atoms match a prefix of [s]. *)
Fixpoint matches_here (caseless : bool) (p : list atom) (s : string) : bool :=
  match p, s with
  | [], _ => true
  | a :: p', String c s' => atom_matches caseless a c && matches_here caseless p' s'
  | _ :: _, EmptyString => false
  end.

(** An unanchored search: the atoms match at some position of [s]. *)
Fixpoint search_plain (caseless : bool) (p : list atom) (s : string) : bool :=
  matches_here caseless p s ||
  match s with
  | EmptyString => false
  | String _ s' => search_plain caseless p s'
  end.

(** *** The words of the specification for the text filter

    "[text] performs a case-insensitive substring match against [title]":
    after folding the case of both, the title is some prefix, then [q], then
    some suffix. *)
Fixpoint lower_string (s : string) : string :=
  match s with
  | EmptyString => EmptyString
  | String c s' => String (lower c) (lower_string s')
  end.

Definition substring_ci (q title : string) : Prop :=
  ∃ pre post, lower_string title = pre +:+ lower_string q +:+ post.

(** No character of [q] has a meaning of its own in a pattern. *)
Fixpoint plain (q : string) : bool :=
  match q with
  | EmptyString => true
  | String c q' => negb (metachar c) && plain q'
  end.

Fixpoint literals (q : string) : list atom :=
  match q with
  | EmptyString => []
  | String c q' => Lit c :: literals q'
  end.


(** ** The world the handlers run in *)

(** Reading an attribute of the store handle. *)
Inductive attribute :=
| AttrMissing
| AttrValue (v : string)
| AttrRaises (e : PyException).

(** The store handle [db] together with the server behind it.  [outage] is
    [Some e] while the server cannot be reached: every operation on the
    handle then raises [e]. *)
Record Database := {
  db_name : attribute;
  outage : option PyException;
  collections : gmap string (list document);
  next_oid : N;
}.

(** Calls made to the store accessor and to the handle. *)
Inductive store_call :=
| CallGetDocuments (collection : string) (filter_dict : gmap string condition) (limit : Z)
| CallCreateDocument (collection : string) (data : document)
| CallListCollectionNames.

(** [db] is [None] when no connection was established at start-up. *)
Record World := {
  db : option Database;
  environ : gmap string string;
  trace : list store_call;
}.

(** State and exceptions: a computation takes the world and either returns or
    raises, in both cases with the world it leaves behind. *)
Definition M (A : Type) : Type := World → outcome A * World.

#[export] Instance M_ret : MRet M := λ A a w, (Returns a, w).

#[export] Instance M_bind : MBind M := λ A B k m w,
  match m w with
  | (Returns a, w') => k a w'
  | (Raises e, w') => (Raises e, w')
  end.

Definition raise {A} (e : exception) : M A := λ w, (Raises e, w).

(** [try: body / except Exception as e: handler e]. *)
Definition try_except {A} (body : M A) (handler : exception → M A) : M A := λ w,
  match body w with
  | (Returns a, w') => (Returns a, w')
  | (Raises e, w') => handler e w'
  end.

Definition get_db : M (option Database) := λ w, (Returns (db w), w).

Definition set_db (d : Database) : M () := λ w,
  (Returns (), {| db := Some d; environ := environ w; trace := trace w |}).

(** The world after one more call to the store accessor. *)
Definition logged (c : store_call) (w : World) : World :=
  {| db := db w; environ := environ w; trace := trace w ++ [c] |}.

Definition log (c : store_call) : M () := λ w, (Returns (), logged c w).

(** [os.getenv]. *)
Definition getenv (k : string) : M (option string) := λ w,
  (Returns (environ w !! k), w).


(** ** A concrete platform and store for the examples

    The statements below hold for every [Platform]; to run the handlers on
    concrete requests one is fixed here.  Its [str] renders identifiers as 24
    hexadecimal digits, its exception classes have no subclasses, its only
    coercion is from integers to floats, and its pattern engine knows the
    plain patterns only. *)

Definition hex_digit (n : N) : ascii :=
  match n with
  | 0 => "0" | 1 => "1" | 2 => "2" | 3 => "3" | 4 => "4" | 5 => "5" | 6 => "6"
  | 7 => "7" | 8 => "8" | 9 => "9" | 10 => "a" | 11 => "b" | 12 => "c"
  | 13 => "d" | 14 => "e" | _ => "f"
  end%N%char.

Fixpoint hex (digits : nat) (n : N) (acc : string) : string :=
  match digits with
  | O => acc
  | S digits' => hex digits' (n / 16)%N (String (hex_digit (n mod 16)%N) acc)
  end.

Definition demo_str (v : value) : string :=
  match v with
  | VObjectId o => hex 24 o ""
  | VStr s => s
  | VNone => "None"
  | VBool true => "True"
  | VBool false => "False"
  | _ => ""
  end.

Definition float_of_Z (z : Z) : float := SF2Prim (binary_normalize prec emax z 0 false).

Definition demo_platform : Platform := {|
  py_str := demo_str;
  str_framework := λ _, "";
  is_instance := λ e class, String.eqb (exc_class e) class;
  lax_float := λ v, match v with VInt z => Some (float_of_Z z) | _ => None end;
  lax_int := λ _, None;
  lax_bool := λ _, None;
  pcre := λ _ _, None;
|}.

Definition demo_product (oid : N) (title : string) (price : float) : document :=
  <["_id" := VObjectId oid]>
    (model_dump (Product.Build title None price "clothing" None None true)).

Definition demo_wish (oid : N) (user_email product_id : string) : document :=
  <["_id" := VObjectId oid]> (model_dump (Wishlist.Build user_email product_id)).

Definition demo_db : Database := {|
  db_name := AttrValue "shop";
  outage := None;
  collections :=
    {[ "product" := [ demo_product 1 "Blue Shirt" 15; demo_product 2 "SHIRTS" 9.99;
                      demo_product 3 "Pants" 20.01; demo_product 4 "Socks" 10;
                      demo_product 5 "Hat" 20 ];
       "wishlist" := [ demo_wish 6 "a@b.com" "1"; demo_wish 7 "A@B.COM" "2";
                       demo_wish 8 "xa@b.com" "3" ] ]};
  next_oid := 9;
|}.

Definition demo_world : World :=
  {| db := Some demo_db; environ := ∅; trace := [] |}.

(** No connection was established at start-up. *)
Definition unconfigured_world : World :=
  {| db := None; environ := ∅; trace := [] |}.

(** An order without items, for the examples. *)
Definition empty_order_payload : document :=
  {[ "user_email" := VStr "a@b.com";
     "shipping_address" := VStr "1 Main Street";
     "payment_method" := VStr "cod";
     "items" := VList [];
     "total" := VFloat 0 ]}.

Definition empty_order : Order.t :=
  Order.Build "a@b.com" "1 Main Street" "cod" "pending" [] 0.


Definition negative_price_payload : document :=
  {[ "title" := VStr "Blue Shirt"; "price" := VFloat (-1); "category" := VStr "clothing" ]}.

Definition bitcoin_order_payload : document :=
  <["payment_method" := VStr "bitcoin"]> empty_order_payload.

(** The store of [demo_world] while its server cannot be reached. *)
Definition offline_world : World :=
  {| db := Some {| db_name := AttrValue "shop";
                   outage := Some (Exc "ServerSelectionTimeoutError" "connection refused");
                   collections := collections demo_db;
                   next_oid := next_oid demo_db |};
     environ := ∅;
     trace := [] |}.

(** A store without documents, and one that holds a single order. *)
Definition empty_shop : World :=
  {| db := Some {| db_name := AttrValue "shop"; outage := None;
                   collections := ∅; next_oid := 0 |};
     environ := ∅;
     trace := [] |}.

Definition one_order_shop : World :=
  {| db := Some {| db_name := AttrValue "shop"; outage := None;
                   collections :=
                     {[ "order" := [<["_id" := VObjectId 0]> (model_dump empty_order)] ]};
                   next_oid := 1 |};
     environ := ∅;
     trace := [] |}.

Definition scarf : Product.t := Product.Build "Scarf" None 12 "clothing" None None true.

Definition hats_payload : document := {[ "name" := VStr "Hats"; "slug" := VStr "hats" ]}.

(** A product document that has a field [id] of its own, as another writer
    to the store may have left it, and a store that holds it. *)
Definition labelled_product : document :=
  <["_id" := VObjectId 7]> (<["id" := VStr "sku-7"]> (model_dump scarf)).

Definition labelled_shop : World :=
  {| db := Some {| db_name := AttrValue "shop"; outage := None;
                   collections := {[ "product" := [labelled_product] ]};
                   next_oid := 8 |};
     environ := ∅;
     trace := [] |}.

(** A product body with an infinite price, and one without a title that has
    an infinite number under a key that is no field. *)
Definition infinite_price_payload : document :=
  {[ "title" := VStr "Moon"; "price" := VFloat infinity; "category" := VStr "land" ]}.

Definition untitled_payload : document :=
  {[ "price" := VFloat 1; "category" := VStr "land" ]}.

(** A handle whose [name] raises an [AttributeError] of its own. *)
Definition nameless_world : World :=
  {| db := Some {| db_name := AttrRaises (Exc "AttributeError" "no name yet");
                   outage := None;
                   collections := collections demo_db;
                   next_oid := next_oid demo_db |};
     environ := ∅;
     trace := [] |}.


Section Gateway.
Context `{Platform}.

(** The type step of each field validator. A value of the declared type is
    taken as it is; anything else goes through pydantic's coercion. A [str]
    field accepts strings only. *)
Definition as_str (v : value) : option string :=
  match v with VStr s => Some s | _ => None end.
Definition as_float (v : value) : option float :=
  match v with VFloat f => Some f | _ => lax_float v end.
Definition as_int (v : value) : option Z :=
  match v with VInt z => Some z | _ => lax_int v end.
Definition as_bool (v : value) : option bool :=
  match v with VBool b => Some b | _ => lax_bool v end.

Definition validate_str (v : value) : validated string :=
  match as_str v with
  | Some s => Valid s
  | None => Invalid (here string_type v)
  end.

(** [float] with an optional [ge] bound. *)
Definition validate_float (ge : option float) (v : value) : validated float :=
  match as_float v with
  | None => Invalid (here float_type v)
  | Some f =>
      match ge with
      | Some bound => if ge_float bound f then Valid f else Invalid (here greater_than_equal v)
      | None => Valid f
      end
  end.

(** [int] with an optional [ge] bound. *)
Definition validate_int (ge : option Z) (v : value) : validated Z :=
  match as_int v with
  | None => Invalid (here int_type v)
  | Some z =>
      match ge with
      | Some bound => if ge_int bound z then Valid z else Invalid (here greater_than_equal v)
      | None => Valid z
      end
  end.

Definition validate_bool (v : value) : validated bool :=
  match as_bool v with
  | Some b => Valid b
  | None => Invalid (here bool_type v)
  end.

(** [Optional[T]]: [None] is accepted as it is. *)
Definition validate_optional {A} (f : value → validated A) (v : value) : validated (option A) :=
  match v with
  | VNone => Valid None
  | _ => Valid Some <*> f v
  end.

(** The elements of a [List[T]], from index [i] on. *)
Fixpoint validate_elements {A} (f : value → validated A) (i : nat) (l : list value)
  : validated (list A) :=
  match l with
  | [] => Valid []
  | v :: l' => Valid cons <*> at_loc (Idx i) (f v) <*> validate_elements f (S i) l'
  end.

Definition validate_list {A} (f : value → validated A) (v : value) : validated (list A) :=
  match v with
  | VList l => validate_elements f 0 l
  | _ => Invalid (here list_type v)
  end.

(** A model-typed input has to be a dict. *)
Definition validate_model {A} (f : document → validated A) (v : value) : validated A :=
  match v with
  | VDict data => f data
  | _ => Invalid (here model_type v)
  end.

(** [Field(..., ...)]: the field is required.  The input of the error for a
    field that is not there is the dict it is missing from. *)
Definition required {A} (name : string) (f : value → validated A) (data : document)
  : validated A :=
  match data !! name with
  | None => Invalid [ErrorDetails [Key name] missing (VDict data)]
  | Some v => at_loc (Key name) (f v)
  end.

(** [Field(default, ...)]: an absent field takes the default, unvalidated. *)
Definition with_default {A} (name : string) (default : A) (f : value → validated A)
    (data : document) : validated A :=
  match data !! name with
  | None => Valid default
  | Some v => at_loc (Key name) (f v)
  end.

(** ** schemas.py: validation *)

Definition validate_Category (data : document) : validated Category.t :=
  Valid Category.Build
    <*> required "name" validate_str data
    <*> required "slug" validate_str data.

Definition validate_Product (data : document) : validated Product.t :=
  Valid Product.Build
    <*> required "title" validate_str data
    <*> with_default "description" None (validate_optional validate_str) data
    <*> required "price" (validate_float (Some 0%float)) data
    <*> required "category" validate_str data
    <*> with_default "brand" None (validate_optional validate_str) data
    <*> with_default "image" None (validate_optional validate_str) data
    <*> with_default "in_stock" true validate_bool data.

Definition validate_OrderItem (data : document) : validated OrderItem.t :=
  Valid OrderItem.Build
    <*> required "product_id" validate_str data
    <*> required "title" validate_str data
    <*> required "price" (validate_float (Some 0%float)) data
    <*> required "quantity" (validate_int (Some 1%Z)) data.

Definition validate_Order (data : document) : validated Order.t :=
  Valid Order.Build
    <*> required "user_email" validate_str data
    <*> required "shipping_address" validate_str data
    <*> required "payment_method" validate_str data
    <*> with_default "status" "pending" validate_str data
    <*> required "items" (validate_list (validate_model validate_OrderItem)) data
    <*> required "total" (validate_float (Some 0%float)) data.

Definition validate_Wishlist (data : document) : validated Wishlist.t :=
  Valid Wishlist.Build
    <*> required "user_email" validate_str data
    <*> required "product_id" validate_str data.


(** [str(e)] for a caught exception. *)
Definition str_exception (e : exception) : string :=
  match e with
  | Other e => exc_str e
  | _ => str_framework e
  end.

(** ** The store accessor

    [database.py] is not part of the sources at hand; its three exports
    [db], [get_documents] and [create_document] are modelled from the
    specification. *)

(** Modelled from the spec: the error [get_documents] and [create_document]
    (module [database], missing) fail with when [db] is [None] -- "the store
    connection was never established". *)
Definition StoreUnavailable : PyException :=
  Exc "StoreUnavailable" "the store connection was never established".

(** Modelled from the spec: the error of [get_documents] (module [database],
    missing) when "the store rejects ... an individual query (e.g., malformed
    filter)". *)
Definition StoreOperationError : PyException :=
  Exc "StoreOperationError" "the store rejects the filter".

(** The search predicate of a pattern: plain patterns are run here, the rest
    is left to the store's engine. *)
Definition regex_compile (pattern options : string) : option (string → bool) :=
  match parse_plain pattern, parse_options options with
  | Some p, Some caseless => Some (search_plain caseless p)
  | _, _ => pcre pattern options
  end.

(** Inclusive bounds. *)
Definition in_range (ops : range_ops) (f : float) : bool :=
  match op_gte ops with Some b => (b <=? f)%float | None => true end &&
  match op_lte ops with Some b => (f <=? b)%float | None => true end.

Definition is_empty_dict (v : value) : bool :=
  match v with
  | VDict m => match map_to_list m with [] => true | _ => false end
  | _ => false
  end.

(** Modelled from the spec: how the store behind [get_documents] (module
    [database], missing) decides one condition on the value of a field:
    "category/brand are exact matches", "filtered by exact user_email match",
    "min_price/max_price are inclusive bounds on price"; the title condition
    is the pattern search that the handler asks for by name.  [None] when
    the store rejects the condition.  An operator document without keys is an
    exact match with the empty dict. *)
Definition condition_pred (c : condition) : option (option value → bool) :=
  match c with
  | Equals s =>
      Some (λ fv, match fv with Some (VStr s') => String.eqb s' s | _ => false end)
  | Regex pattern options =>
      match regex_compile pattern options with
      | Some re => Some (λ fv, match fv with Some (VStr t) => re t | _ => false end)
      | None => None
      end
  | Range ops =>
      if range_nonempty ops
      then Some (λ fv, match fv with Some (VFloat f) => in_range ops f | _ => false end)
      else Some (λ fv, match fv with Some v => is_empty_dict v | None => false end)
  end.

(** The conditions of a filter are conjunctive. *)
Fixpoint conj_pred (l : list (string * condition)) : option (document → bool) :=
  match l with
  | [] => Some (λ _, true)
  | (k, c) :: l' =>
      match condition_pred c, conj_pred l' with
      | Some p, Some rest => Some (λ d, p (d !! k) && rest d)
      | _, _ => None
      end
  end.

Definition query_pred (filter_dict : gmap string condition) : option (document → bool) :=
  conj_pred (map_to_list filter_dict).

Definition documents_of (d : Database) (collection : string) : list document :=
  default [] (collections d !! collection).

(** Modelled from the spec: [get_documents] of the missing module
    [database], "find-with-filter-and-limit returning a sequence of
    documents"; "limit caps returned count"; fails when the store is
    unavailable or rejects the filter. *)
Definition get_documents (collection : string) (filter_dict : gmap string condition)
    (limit : Z) : M (list document) :=
  _ ← log (CallGetDocuments collection filter_dict limit);
  handle ← get_db;
  match handle with
  | None => raise (Other StoreUnavailable)
  | Some d =>
      match outage d with
      | Some e => raise (Other e)
      | None =>
          match query_pred filter_dict with
          | None => raise (Other StoreOperationError)
          | Some p => mret (take (Z.to_nat limit) (List.filter p (documents_of d collection)))
          end
      end
  end.

(** Modelled from the spec: [create_document] of the missing module
    [database], "insert-one returning a generated identifier": the dumped
    record is stored under "a store-generated opaque identifier assigned at
    creation and never reused", whose string form is returned. *)
Definition create_document {A} `{Model A} (collection : string) (data : A) : M string :=
  let doc := model_dump data in
  _ ← log (CallCreateDocument collection doc);
  handle ← get_db;
  match handle with
  | None => raise (Other StoreUnavailable)
  | Some d =>
      match outage d with
      | Some e => raise (Other e)
      | None =>
          let oid := next_oid d in
          let stored := <["_id" := VObjectId oid]> doc in
          _ ← set_db {| db_name := db_name d;
                        outage := outage d;
                        collections :=
                          <[collection := (documents_of d collection ++ [stored])%list]> (collections d);
                        next_oid := N.succ oid |};
          mret (py_str (VObjectId oid))
      end
  end.

(** Modelled from the spec: [db.list_collection_names()], the store's
    "listing collection names"; fails while the store cannot be reached. *)
Definition list_collection_names (d : Database) : M (list string) :=
  _ ← log CallListCollectionNames;
  match outage d with
  | Some e => raise (Other e)
  | None => mret (map_to_list (collections d)).*1
  end.

(** [hasattr(db, 'name')]: false on a missing attribute, and also when
    reading the attribute raises an [AttributeError] of its own; another
    exception raised by the attribute is not swallowed. *)
Definition hasattr_name (d : Database) : M bool :=
  match db_name d with
  | AttrMissing => mret false
  | AttrValue _ => mret true
  | AttrRaises e =>
      if is_instance e "AttributeError" then mret false else raise (Other e)
  end.

(** [db.name]. *)
Definition getattr_name (d : Database) : M string :=
  match db_name d with
  | AttrMissing => raise (Other (Exc "AttributeError" "name"))
  | AttrValue v => mret v
  | AttrRaises e => raise (Other e)
  end.

(** ** main.py: the handlers *)

(** Python truthiness of an [Optional[str]]: the string when it is present
    and not empty. *)
Definition truthy (o : option string) : option string :=
  match o with
  | Some (String _ _ as s) => Some s
  | _ => None
  end.

(** The filter that [list_products] builds from its parameters. *)
Definition list_products_query (q category brand : option string)
    (min_price max_price : option float) : gmap string condition :=
  let query : gmap string condition := ∅ in
  let query :=
    match truthy q with
    | Some q => <["title" := Regex q "i"]> query
    | None => query
    end in
  let query :=
    match truthy category with
    | Some category => <["category" := Equals category]> query
    | None => query
    end in
  let query :=
    match truthy brand with
    | Some brand => <["brand" := Equals brand]> query
    | None => query
    end in
  let price_filter := RangeOps None None in
  let price_filter :=
    match min_price with
    | Some min_price => RangeOps (Some min_price) (op_lte price_filter)
    | None => price_filter
    end in
  let price_filter :=
    match max_price with
    | Some max_price => RangeOps (op_gte price_filter) (Some max_price)
    | None => price_filter
    end in
  if range_nonempty price_filter
  then <["price" := Range price_filter]> query
  else query.

(** [if "_id" in d: d["id"] = str(d.pop("_id"))]. *)
Definition normalize_id (d : document) : document :=
  match d !! "_id" with
  | Some oid => <["id" := VStr (py_str oid)]> (delete "_id" d)
  | None => d
  end.

(** [{"items": docs}] after the loop over [docs]. *)
Definition items_response (docs : list document) : document :=
  {[ "items" := VList (VDict <$> (normalize_id <$> docs)) ]}.

Definition id_response (new_id : string) : document :=
  {[ "id" := VStr new_id ]}.

Definition list_products (q category brand : option string)
    (min_price max_price : option float) (limit : Z) : M document :=
  handle ← get_db;
  match handle with
  | None => raise (HTTPException 500 "Database unavailable")
  | Some _ =>
      docs ← get_documents "product"
               (list_products_query q category brand min_price max_price) limit;
      mret (items_response docs)
  end.

Definition create_product (product : Product.t) : M document :=
  pid ← create_document "product" product;
  mret (id_response pid).

Definition list_categories (limit : Z) : M document :=
  docs ← get_documents "category" ∅ limit;
  mret (items_response docs).

Definition create_category (category : Category.t) : M document :=
  cid ← create_document "category" category;
  mret (id_response cid).

Definition get_wishlist (user_email : string) (limit : Z) : M document :=
  docs ← get_documents "wishlist" {[ "user_email" := Equals user_email ]} limit;
  mret (items_response docs).

Definition add_to_wishlist (item : Wishlist.t) : M document :=
  wid ← create_document "wishlist" item;
  mret (id_response wid).

Definition list_orders (user_email : string) (limit : Z) : M document :=
  docs ← get_documents "order" {[ "user_email" := Equals user_email ]} limit;
  mret (items_response docs).

Definition create_order (order : Order.t) : M document :=
  oid ← create_document "order" order;
  mret (id_response oid).

Definition env_status (v : option string) : value :=
  match truthy v with
  | Some _ => VStr "✅ Set"
  | None => VStr "❌ Not Set"
  end.

Definition test_database : M document :=
  let response : document :=
    {[ "backend" := VStr "✅ Running";
       "database" := VStr "❌ Not Available";
       "database_url" := VNone;
       "database_name" := VNone;
       "connection_status" := VStr "Not Connected";
       "collections" := VList [] ]} in
  response ←
    (handle ← get_db;
     match handle with
     | Some d =>
         let response := <["database" := VStr "✅ Available"]> response in
         let response := <["database_url" := VStr "✅ Configured"]> response in
         try_except
           (has_name ← hasattr_name d;
            name ← (if has_name : bool then getattr_name d else mret "✅ Connected");
            let response := <["database_name" := VStr name]> response in
            let response := <["connection_status" := VStr "Connected"]> response in
            try_except
              (collections ← list_collection_names d;
               let response :=
                 <["collections" := VList (VStr <$> take 10 collections)]> response in
               mret (<["database" := VStr "✅ Connected & Working"]> response))
              (λ e, mret (<["database" :=
                             VStr ("⚠️  Connected but Error: "
                                   +:+ substring 0 50 (str_exception e))]> response)))
           (λ e, mret (<["database" :=
                          VStr ("❌ Error: " +:+ substring 0 50 (str_exception e))]> response))
     | None =>
         mret (<["database" := VStr "⚠️  Available but not initialized"]> response)
     end);
  database_url ← getenv "DATABASE_URL";
  let response := <["database_url" := env_status database_url]> response in
  database_name ← getenv "DATABASE_NAME";
  let response := <["database_name" := env_status database_name]> response in
  mret response.

(** ** The routes: FastAPI's binding of requests to the handlers

    A handler runs only when every parameter validates; otherwise the request
    is answered with the validation errors and the handler is not called.  A
    query parameter is either absent or present with a value of its declared
    type. *)

Definition run_validated (call : validated (M document)) : M document :=
  match call with
  | Valid m => m
  | Invalid errors => raise (RequestValidationError errors)
  end.

Definition body_param {A} (validate : document → validated A) (body : value) : validated A :=
  at_loc (Key "body") (validate_model validate body).

Definition query_required {A} (name : string) (p : option A) : validated A :=
  match p with
  | Some a => Valid a
  | None => Invalid [ErrorDetails [Key "query"; Key name] missing VNone]
  end.

Definition query_default {A} (d : A) (p : option A) : validated A :=
  Valid (default d p).

(** [class AddProductRequest(Product): pass]. *)
Definition validate_AddProductRequest := validate_Product.

Definition GET_products (q category brand : option string)
    (min_price max_price : option float) (limit : option Z) : M document :=
  run_validated (Valid (list_products q category brand min_price max_price)
                   <*> query_default 50%Z limit).

Definition POST_products (body : value) : M document :=
  run_validated (Valid create_product <*> body_param validate_AddProductRequest body).

Definition GET_categories (limit : option Z) : M document :=
  run_validated (Valid list_categories <*> query_default 100%Z limit).

Definition POST_categories (body : value) : M document :=
  run_validated (Valid create_category <*> body_param validate_Category body).

Definition GET_wishlist (user_email : option string) (limit : option Z) : M document :=
  run_validated (Valid get_wishlist
                   <*> query_required "user_email" user_email
                   <*> query_default 100%Z limit).

Definition POST_wishlist (body : value) : M document :=
  run_validated (Valid add_to_wishlist <*> body_param validate_Wishlist body).

Definition GET_orders (user_email : option string) (limit : option Z) : M document :=
  run_validated (Valid list_orders
                   <*> query_required "user_email" user_email
                   <*> query_default 50%Z limit).

Definition POST_orders (body : value) : M document :=
  run_validated (Valid create_order <*> body_param validate_Order body).

(** ** The data operations, as one type

    Every list and create operation with its arguments, to state properties
    of all of them at once. *)

Inductive list_call :=
| ListProducts (q category brand : option string) (min_price max_price : option float)
    (limit : Z)
| ListCategories (limit : Z)
| GetWishlist (user_email : string) (limit : Z)
| ListOrders (user_email : string) (limit : Z).

Inductive create_call :=
| CreateProduct (product : Product.t)
| CreateCategory (category : Category.t)
| AddToWishlist (item : Wishlist.t)
| CreateOrder (order : Order.t).

Inductive data_call :=
| ListCall (c : list_call)
| CreateCall (c : create_call).

Definition run_list (c : list_call) : M document :=
  match c with
  | ListProducts q category brand min_price max_price limit =>
      list_products q category brand min_price max_price limit
  | ListCategories limit => list_categories limit
  | GetWishlist user_email limit => get_wishlist user_email limit
  | ListOrders user_email limit => list_orders user_email limit
  end.

Definition run_create (c : create_call) : M document :=
  match c with
  | CreateProduct product => create_product product
  | CreateCategory category => create_category category
  | AddToWishlist item => add_to_wishlist item
  | CreateOrder order => create_order order
  end.

Definition run_call (c : data_call) : M document :=
  match c with
  | ListCall c => run_list c
  | CreateCall c => run_create c
  end.

(** The collection a list operation reads. *)
Definition collection_of (c : list_call) : string :=
  match c with
  | ListProducts _ _ _ _ _ _ => "product"
  | ListCategories _ => "category"
  | GetWishlist _ _ => "wishlist"
  | ListOrders _ _ => "order"
  end.

(** The filter a list operation sends to the store. *)
Definition filter_of (c : list_call) : gmap string condition :=
  match c with
  | ListProducts q category brand min_price max_price _ =>
      list_products_query q category brand min_price max_price
  | ListCategories _ => ∅
  | GetWishlist user_email _ | ListOrders user_email _ =>
      {[ "user_email" := Equals user_email ]}
  end.

(** The limit of a list operation. *)
Definition limit_of (c : list_call) : Z :=
  match c with
  | ListProducts _ _ _ _ _ limit | ListCategories limit
  | GetWishlist _ limit | ListOrders _ limit => limit
  end.

(** The store connection was never established, or the store cannot be
    reached at call time. *)
Definition store_unavailable (w : World) : Prop :=
  match db w with
  | None => True
  | Some d => is_Some (outage d)
  end.


(** The record a create operation stores, as a dict. *)
Definition dumped (c : create_call) : document :=
  match c with
  | CreateProduct product => model_dump product
  | CreateCategory category => model_dump category
  | AddToWishlist item => model_dump item
  | CreateOrder order => model_dump order
  end.

Definition created_in (c : create_call) : string :=
  match c with
  | CreateProduct _ => "product"
  | CreateCategory _ => "category"
  | AddToWishlist _ => "wishlist"
  | CreateOrder _ => "order"
  end.

(** The list operation that finds what a create operation stored: products
    and categories unfiltered, wishlist entries and orders by the address
    they were created with. *)
Definition listing_of (c : create_call) (limit : Z) : list_call :=
  match c with
  | CreateProduct _ => ListProducts None None None None None limit
  | CreateCategory _ => ListCategories limit
  | AddToWishlist item => GetWishlist (Wishlist.user_email item) limit
  | CreateOrder order => ListOrders (Order.user_email order) limit
  end.


(** ** The application as a whole *)

Definition read_root : M document :=
  mret {[ "message" := VStr "Shop API running" ]}.

Definition get_schema_info : M document :=
  mret {[ "collections" :=
            VList (VStr <$> ["user"; "category"; "product"; "order"; "wishlist"]) ]}.

(** A request to one of the eleven routes, with its query parameters or its
    decoded body. *)
Inductive request :=
| ReqRoot
| ReqSchema
| ReqGetProducts (q category brand : option string) (min_price max_price : option float)
    (limit : option Z)
| ReqPostProducts (body : value)
| ReqGetCategories (limit : option Z)
| ReqPostCategories (body : value)
| ReqGetWishlist (user_email : option string) (limit : option Z)
| ReqPostWishlist (body : value)
| ReqGetOrders (user_email : option string) (limit : option Z)
| ReqPostOrders (body : value)
| ReqTest.

Definition serve (r : request) : M document :=
  match r with
  | ReqRoot => read_root
  | ReqSchema => get_schema_info
  | ReqGetProducts q category brand min_price max_price limit =>
      GET_products q category brand min_price max_price limit
  | ReqPostProducts body => POST_products body
  | ReqGetCategories limit => GET_categories limit
  | ReqPostCategories body => POST_categories body
  | ReqGetWishlist user_email limit => GET_wishlist user_email limit
  | ReqPostWishlist body => POST_wishlist body
  | ReqGetOrders user_email limit => GET_orders user_email limit
  | ReqPostOrders body => POST_orders body
  | ReqTest => test_database
  end.

(** The create operation that a request comes to when its body validates. *)
Definition accepted (r : request) : option create_call :=
  match r with
  | ReqPostProducts body =>
      match body_param validate_AddProductRequest body with
      | Valid product => Some (CreateProduct product)
      | Invalid _ => None
      end
  | ReqPostCategories body =>
      match body_param validate_Category body with
      | Valid category => Some (CreateCategory category)
      | Invalid _ => None
      end
  | ReqPostWishlist body =>
      match body_param validate_Wishlist body with
      | Valid item => Some (AddToWishlist item)
      | Invalid _ => None
      end
  | ReqPostOrders body =>
      match body_param validate_Order body with
      | Valid order => Some (CreateOrder order)
      | Invalid _ => None
      end
  | _ => None
  end.

(** The list operation that a [GET] request comes to when its parameters
    validate. *)
Definition listing (r : request) : option list_call :=
  match r with
  | ReqGetProducts q category brand min_price max_price limit =>
      Some (ListProducts q category brand min_price max_price (default 50%Z limit))
  | ReqGetCategories limit => Some (ListCategories (default 100%Z limit))
  | ReqGetWishlist (Some user_email) limit =>
      Some (GetWishlist user_email (default 100%Z limit))
  | ReqGetOrders (Some user_email) limit =>
      Some (ListOrders user_email (default 50%Z limit))
  | _ => None
  end.

(** The world after a sequence of requests, whatever their outcomes. *)
Definition after (rs : list request) (w : World) : World :=
  fold_left (λ w r, (serve r w).2) rs w.

(** ** Identifiers in the store *)

(** A document whose [_id] is a store identifier has one below [n]. *)
Definition ids_below (n : N) (d : document) : Prop :=
  ∀ o, d !! "_id" = Some (VObjectId o) → (o < n)%N.

(** The store has handed out no identifier from [next_oid] on: the
    identifier of every stored document is below it. *)
Definition fresh_ids (w : World) : Prop :=
  match db w with
  | None => True
  | Some store =>
      ∀ collection docs d,
        collections store !! collection = Some docs → d ∈ docs →
        ids_below (next_oid store) d
  end.

(** ** The bounds of the schemas *)

(** An order item within its bounds: a price of at least 0 and a quantity of
    at least 1. *)
Definition item_ok (i : OrderItem.t) : Prop :=
  ge_float 0 (OrderItem.price i) = true ∧ ge_int 1 (OrderItem.quantity i) = true.

(** The record of a create operation is within the bounds of its schema. *)
Definition valid_record (c : create_call) : Prop :=
  match c with
  | CreateProduct product => ge_float 0 (Product.price product) = true
  | CreateOrder order =>
      ge_float 0 (Order.total order) = true ∧ Forall item_ok (Order.items order)
  | CreateCategory _ | AddToWishlist _ => True
  end.

(** Every stored document is, under a store identifier, the dump of a record
    of the schema of its collection, within the bounds of that schema. *)
Definition conforming (w : World) : Prop :=
  match db w with
  | None => True
  | Some store =>
      ∀ collection docs d,
        collections store !! collection = Some docs → d ∈ docs →
        ∃ c oid, created_in c = collection ∧ valid_record c
                 ∧ d = <["_id" := VObjectId oid]> (dumped c)
  end.

(** The field names of the schemas. *)
Definition Category_fields : list string := ["name"; "slug"].
Definition Product_fields : list string :=
  ["title"; "description"; "price"; "category"; "brand"; "image"; "in_stock"].
Definition Wishlist_fields : list string := ["user_email"; "product_id"].
Definition Order_fields : list string :=
  ["user_email"; "shipping_address"; "payment_method"; "status"; "items"; "total"].


(** * Properties *)

(** ** Rendering *)

Lemma renderable_VDict (m : document) :
  renderable (VDict m) = true ↔ ∀ k v, m !! k = Some v → renderable v = true.
Proof.
  cbn [renderable].
  induction m as [|k v m Hk Hfold IH] using map_first_key_ind.
  - rewrite map_fold_empty. split; [|done]. intros _ k v. by rewrite lookup_empty.
  - rewrite map_fold_insert_first_key by done.
    rewrite andb_true_iff, IH. split.
    + intros [Hv Hm] k' v'. rewrite lookup_insert_Some. intros [[<- <-]|[_ Hl]]; eauto.
    + intros Hall. split.
      * apply (Hall k). apply lookup_insert_eq.
      * intros k' v' Hl. apply (Hall k'). rewrite lookup_insert_ne; [done|].
        intros ->. congruence.
Qed.

Lemma renderable_insert (k : string) (v : value) (m : document) :
  renderable v = true → renderable (VDict m) = true →
  renderable (VDict (<[k := v]> m)) = true.
Proof.
  rewrite !renderable_VDict. intros Hv Hm k' v'.
  rewrite lookup_insert_Some. intros [[<- <-]|[_ Hl]]; eauto.
Qed.

Lemma renderable_strs (l : list string) : renderable (VList (VStr <$> l)) = true.
Proof. cbn [renderable]. apply forallb_forall. by intros v (s & <- & _)%in_map_iff. Qed.

Lemma status_of_Returns (response : document) :
  renderable (VDict response) = true → status_of (Returns response) = 200%Z.
Proof. intros Hr. unfold status_of. by rewrite Hr. Qed.

(** ** Validation *)

Lemma ap_Valid_inv {A B} (f : validated (A → B)) (x : validated A) (b : B) :
  f <*> x = Valid b → ∃ g a, f = Valid g ∧ x = Valid a ∧ b = g a.
Proof.
  destruct f as [g|e1], x as [a|e2]; simpl; intros E; try discriminate.
  injection E as <-. eauto.
Qed.

Lemma reports_ap_r {A B} (e : error_details) (f : validated (A → B)) (x : validated A) :
  reports e x → reports e (f <*> x).
Proof.
  intros (es & -> & He). destruct f as [g|e1]; simpl; eexists; split; eauto.
  apply elem_of_app. by right.
Qed.

Lemma reports_ap_l {A B} (e : error_details) (f : validated (A → B)) (x : validated A) :
  reports e f → reports e (f <*> x).
Proof.
  intros (es & -> & He). destruct x as [a|e2]; simpl; eexists; split; eauto.
  apply elem_of_app. by left.
Qed.

Lemma reports_at_loc {A} (i : loc_item) (l : list loc_item) (t : error_type)
    (v : value) (r : validated A) :
  reports (ErrorDetails l t v) r → reports (ErrorDetails (i :: l) t v) (at_loc i r).
Proof.
  intros (es & -> & He). simpl. eexists; split; [reflexivity|].
  apply list_elem_of_In, in_map_iff. exists (ErrorDetails l t v).
  split; [reflexivity|]. by apply list_elem_of_In.
Qed.

(** A float below zero is not at least zero. *)
Lemma negative_not_ge_zero (p : float) :
  (p <? 0)%float = true → ge_float 0 p = false.
Proof.
  unfold ge_float. rewrite ltb_spec, leb_spec.
  change (Prim2SF 0) with (S754_zero false).
  destruct (Prim2SF p) as [ [|] | [|] | | [|] m e]; cbn; congruence.
Qed.

(** Another key does not change how a field that is there validates; for a
    field that is missing it changes the input of the error. *)
Lemma required_insert_ne {A} (k name : string) (v : value) (f : value → validated A)
    (data : document) :
  k ≠ name → is_Some (data !! name) →
  required name f (<[k := v]> data) = required name f data.
Proof.
  intros Hne [x Hx]. unfold required. rewrite lookup_insert_ne by done. by rewrite Hx.
Qed.

Lemma required_insert_ne_Valid {A} (k name : string) (v : value) (f : value → validated A)
    (data : document) (a : A) :
  k ≠ name → required name f data = Valid a →
  required name f (<[k := v]> data) = Valid a.
Proof.
  intros Hne Ha. rewrite required_insert_ne; [exact Ha|exact Hne|].
  unfold required in Ha. by destruct (data !! name).
Qed.

Lemma with_default_insert_ne {A} (k name : string) (v : value) (a : A)
    (f : value → validated A) (data : document) :
  k ≠ name → with_default name a f (<[k := v]> data) = with_default name a f data.
Proof. intros Hne. unfold with_default. by rewrite lookup_insert_ne. Qed.

Lemma required_str_Valid_inv (name : string) (data : document) (s : string) :
  required name validate_str data = Valid s → data !! name = Some (VStr s).
Proof.
  unfold required. destruct (data !! name) as [v|]; [|discriminate].
  destruct v; simpl; try discriminate. by intros [= ->].
Qed.

(** A negative price is reported by the Product validator. *)
Lemma validate_Product_negative_price (data : document) (v : value) (p : float) :
  data !! "price" = Some v → as_float v = Some p → (p <? 0)%float = true →
  reports (ErrorDetails [Key "price"] greater_than_equal v) (validate_Product data).
Proof.
  intros Hv Hp Hneg. unfold validate_Product.
  do 4 apply reports_ap_l. apply reports_ap_r.
  unfold required. rewrite Hv. unfold validate_float. rewrite Hp.
  rewrite (negative_not_ge_zero p Hneg). eexists; split; [reflexivity|].
  apply list_elem_of_here.
Qed.

(** A request whose parameters do not validate is answered without running
    the handler: the world is left as it was. *)
Lemma run_validated_Invalid (errors : list error_details) (w : World) :
  run_validated (Invalid errors) w = (Raises (RequestValidationError errors), w).
Proof. reflexivity. Qed.

(** ** C1 *)

(** C1: a Product payload whose price is below zero makes [POST /api/products]
    fail with a validation error that reports the bound on [price], with the
    price that was sent as its input; the world is unchanged: no document is
    inserted and the store accessor is not called at all. *)
Theorem create_product_rejects_negative_price
    (data : document) (v : value) (p : float) (w : World) :
  data !! "price" = Some v → as_float v = Some p → (p <? 0)%float = true →
  ∃ errors,
    POST_products (VDict data) w = (Raises (RequestValidationError errors), w)
    ∧ ErrorDetails [Key "body"; Key "price"] greater_than_equal v ∈ errors.
Proof.
  intros Hv Hp Hneg.
  pose proof (validate_Product_negative_price data v p Hv Hp Hneg) as Hrep.
  apply (reports_at_loc (Key "body")) in Hrep.
  apply (reports_ap_r _ (Valid create_product)) in Hrep.
  destruct Hrep as (errors & Herr & Hin).
  exists errors. unfold POST_products, body_param, validate_AddProductRequest.
  simpl validate_model. rewrite Herr. rewrite run_validated_Invalid. auto.
Qed.

(** ** The store accessor *)

Lemma create_document_available {A} `{Model A} (collection : string) (data : A)
    (w : World) (d : Database) :
  db w = Some d → outage d = None →
  create_document collection data w =
    (Returns (py_str (VObjectId (next_oid d))),
     {| db := Some {| db_name := db_name d;
                      outage := outage d;
                      collections :=
                        <[collection := (documents_of d collection
                                         ++ [<["_id" := VObjectId (next_oid d)]> (model_dump data)])%list]>
                          (collections d);
                      next_oid := N.succ (next_oid d) |};
        environ := environ w;
        trace := trace w ++ [CallCreateDocument collection (model_dump data)] |}).
Proof.
  intros Hdb Hup. unfold create_document, mbind, M_bind, log, get_db, set_db, mret, M_ret.
  simpl. rewrite Hdb, Hup. reflexivity.
Qed.

Lemma create_document_Returns_inv {A} `{Model A} (collection : string) (data : A)
    (w w' : World) (s : string) :
  create_document collection data w = (Returns s, w') →
  ∃ d, db w = Some d ∧ outage d = None.
Proof.
  unfold create_document, mbind, M_bind, log, get_db, set_db, mret, M_ret, raise. simpl.
  destruct (db w) as [d|]; [|discriminate].
  destruct (outage d) eqn:E; [discriminate|]. eauto.
Qed.

Lemma documents_of_insert (d : Database) (collection : string) (docs : list document) :
  documents_of {| db_name := db_name d; outage := outage d;
                  collections := <[collection := docs]> (collections d);
                  next_oid := N.succ (next_oid d) |} collection = docs.
Proof. unfold documents_of. simpl. by rewrite lookup_insert_eq. Qed.

(** ** C8 *)

(** A request body that validates as an Order reaches the handler. *)
Lemma POST_orders_Valid (data : document) (order : Order.t) (w : World) :
  validate_Order data = Valid order →
  POST_orders (VDict data) w = create_order order w.
Proof.
  intros E. unfold POST_orders, body_param. simpl validate_model. by rewrite E.
Qed.

Lemma POST_orders_Returns_inv (data : document) (w w' : World) (r : document) :
  POST_orders (VDict data) w = (Returns r, w') →
  ∃ order, validate_Order data = Valid order ∧ create_order order w = (Returns r, w').
Proof.
  unfold POST_orders, body_param. simpl validate_model.
  destruct (validate_Order data) as [order|errors]; simpl.
  - eauto.
  - discriminate.
Qed.

Lemma create_order_Returns_inv (order : Order.t) (w w' : World) (r : document) :
  create_order order w = (Returns r, w') → ∃ d, db w = Some d ∧ outage d = None.
Proof.
  unfold create_order. unfold mbind at 1, M_bind at 1.
  destruct (create_document "order" order w) as [[s|e] w1] eqn:E; [|discriminate].
  intros _. exact (create_document_Returns_inv _ _ _ _ _ E).
Qed.

Lemma create_order_available (order : Order.t) (w : World) (d : Database) :
  db w = Some d → outage d = None →
  ∃ w', create_order order w = (Returns (id_response (py_str (VObjectId (next_oid d)))), w')
        ∧ ∃ d', db w' = Some d'
                ∧ documents_of d' "order"
                  = (documents_of d "order"
                     ++ [<["_id" := VObjectId (next_oid d)]> (model_dump order)])%list.
Proof.
  intros Hdb Hup. unfold create_order. unfold mbind at 1, M_bind at 1.
  rewrite (create_document_available _ _ _ d Hdb Hup). eexists; split; [reflexivity|].
  eexists; split; [reflexivity|]. apply documents_of_insert.
Qed.

(** C8, as the code has it: [payment_method] is validated as a required
    string and nothing more.  A payload that [POST /api/orders] accepts holds
    a string there, the validated order carries that string, and the payload
    stays accepted when the string is replaced by any other one. *)
Theorem create_order_accepts_any_payment_method
    (data : document) (w w' : World) (r : document) :
  POST_orders (VDict data) w = (Returns r, w') →
  ∃ pm order,
    data !! "payment_method" = Some (VStr pm)
    ∧ validate_Order data = Valid order
    ∧ Order.payment_method order = pm
    ∧ ∀ pm' : string, ∃ r' w'',
        POST_orders (VDict (<["payment_method" := VStr pm']> data)) w = (Returns r', w'').
Proof.
  intros Hrun.
  destruct (POST_orders_Returns_inv _ _ _ _ Hrun) as (order & Hval & Hcreate).
  destruct (create_order_Returns_inv _ _ _ _ Hcreate) as (d & Hdb & Hup).
  pose proof Hval as Hfields. unfold validate_Order in Hfields.
  apply ap_Valid_inv in Hfields as (g6 & total & Hfields & Htotal & ->).
  apply ap_Valid_inv in Hfields as (g5 & items & Hfields & Hitems & ->).
  apply ap_Valid_inv in Hfields as (g4 & status & Hfields & Hstatus & ->).
  apply ap_Valid_inv in Hfields as (g3 & pm & Hfields & Hpm & ->).
  apply ap_Valid_inv in Hfields as (g2 & addr & Hfields & Haddr & ->).
  apply ap_Valid_inv in Hfields as (g1 & email & Hfields & Hemail & ->).
  injection Hfields as <-.
  exists pm, (Order.Build email addr pm status items total).
  split; [by apply required_str_Valid_inv|]. split; [exact Hval|]. split; [reflexivity|].
  intros pm'.
  assert (Hval' : validate_Order (<["payment_method" := VStr pm']> data)
                  = Valid (Order.Build email addr pm' status items total)).
  { unfold validate_Order.
    rewrite (required_insert_ne_Valid _ "total" _ _ _ total),
      (required_insert_ne_Valid _ "items" _ _ _ items),
      (with_default_insert_ne _ "status"),
      (required_insert_ne_Valid _ "shipping_address" _ _ _ addr),
      (required_insert_ne_Valid _ "user_email" _ _ _ email)
      by first [discriminate|assumption].
    rewrite Hstatus.
    unfold required at 1. rewrite lookup_insert_eq. reflexivity. }
  rewrite (POST_orders_Valid _ _ _ Hval').
  destruct (create_order_available (Order.Build email addr pm' status items total) w d Hdb Hup)
    as (w'' & -> & _).
  eauto.
Qed.

(** ** C9 *)

Lemma validate_empty_order : validate_Order empty_order_payload = Valid empty_order.
Proof. vm_compute. reflexivity. Qed.

(** C9: [POST /api/orders] accepts an order whose [items] list is empty.
    With the store available, the payload [empty_order_payload] validates,
    the call returns the new identifier and the document is appended to the
    [order] collection. *)
Theorem create_order_accepts_empty_items (w : World) (d : Database) :
  db w = Some d → outage d = None →
  ∃ data order w',
    data !! "items" = Some (VList [])
    ∧ validate_Order data = Valid order
    ∧ Order.items order = []
    ∧ POST_orders (VDict data) w
      = (Returns (id_response (py_str (VObjectId (next_oid d)))), w')
    ∧ ∃ d', db w' = Some d'
            ∧ documents_of d' "order"
              = (documents_of d "order"
                 ++ [<["_id" := VObjectId (next_oid d)]> (model_dump order)])%list.
Proof.
  intros Hdb Hup.
  destruct (create_order_available empty_order w d Hdb Hup) as (w' & Hrun & Hstored).
  exists empty_order_payload, empty_order, w'.
  split; [reflexivity|]. split; [apply validate_empty_order|]. split; [reflexivity|].
  split; [|exact Hstored].
  by rewrite (POST_orders_Valid _ _ _ validate_empty_order).
Qed.

(** ** C10 *)

Lemma truthy_empty : truthy (Some "") = truthy None.
Proof. reflexivity. Qed.

(** The [price] entry of the filter is decided by the two bounds alone. *)
Lemma list_products_query_price (q category brand : option string)
    (min_price max_price : option float) :
  list_products_query q category brand min_price max_price !! "price"
  = if range_nonempty (RangeOps min_price max_price)
    then Some (Range (RangeOps min_price max_price))
    else None.
Proof.
  unfold list_products_query.
  destruct min_price as [mn|], max_price as [mx|]; simpl;
    try apply lookup_insert_eq;
    destruct (truthy q), (truthy category), (truthy brand);
    repeat (rewrite lookup_insert_ne by discriminate); apply lookup_empty.
Qed.

(** C10: in the filter built by [list_products] an empty string for [q],
    [category] or [brand] is the same as no parameter, while a bound of [0.0]
    is a bound: the [price] entry then holds it, and there is no [price]
    entry only when both bounds are [None]. *)
Theorem list_products_query_empty_and_zero :
  (∀ category brand min_price max_price,
      list_products_query (Some "") category brand min_price max_price
      = list_products_query None category brand min_price max_price)
  ∧ (∀ q brand min_price max_price,
      list_products_query q (Some "") brand min_price max_price
      = list_products_query q None brand min_price max_price)
  ∧ (∀ q category min_price max_price,
      list_products_query q category (Some "") min_price max_price
      = list_products_query q category None min_price max_price)
  ∧ (∀ q category brand max_price,
      list_products_query q category brand (Some 0%float) max_price !! "price"
      = Some (Range (RangeOps (Some 0%float) max_price)))
  ∧ (∀ q category brand min_price,
      list_products_query q category brand min_price (Some 0%float) !! "price"
      = Some (Range (RangeOps min_price (Some 0%float))))
  ∧ (∀ q category brand min_price max_price,
      list_products_query q category brand min_price max_price !! "price" = None
      ↔ min_price = None ∧ max_price = None).
Proof.
  repeat split; try reflexivity.
  - intros. rewrite list_products_query_price. reflexivity.
  - intros. rewrite list_products_query_price. by destruct min_price.
  - rewrite list_products_query_price in *.
    destruct min_price, max_price; simpl in *; congruence.
  - rewrite list_products_query_price in *.
    destruct min_price, max_price; simpl in *; congruence.
  - intros [-> ->]. by rewrite list_products_query_price.
Qed.

(** ** Reading from the store *)

Ltac run_M :=
  unfold mbind, M_bind, mret, M_ret, raise, get_db, set_db, log, getenv, try_except;
  simpl.

Lemma get_documents_Returns_inv (collection : string) (filter_dict : gmap string condition)
    (limit : Z) (w w' : World) (docs : list document) :
  get_documents collection filter_dict limit w = (Returns docs, w') →
  ∃ d p, db w = Some d ∧ outage d = None ∧ query_pred filter_dict = Some p
         ∧ docs = take (Z.to_nat limit) (List.filter p (documents_of d collection)).
Proof.
  unfold get_documents. run_M.
  destruct (db w) as [d|]; [|discriminate].
  destruct (outage d) eqn:Hup; [discriminate|].
  destruct (query_pred filter_dict) as [p|] eqn:Hq; [|discriminate].
  intros [= <- <-]. eauto 10.
Qed.

Lemma get_documents_available (collection : string) (filter_dict : gmap string condition)
    (limit : Z) (w : World) (d : Database) (p : document → bool) :
  db w = Some d → outage d = None → query_pred filter_dict = Some p →
  get_documents collection filter_dict limit w
  = (Returns (take (Z.to_nat limit) (List.filter p (documents_of d collection))),
     logged (CallGetDocuments collection filter_dict limit) w).
Proof.
  intros Hdb Hup Hq. unfold get_documents. run_M. by rewrite Hdb, Hup, Hq.
Qed.

Lemma elem_of_take_filter (p : document → bool) (n : nat) (l : list document) (d : document) :
  d ∈ take n (List.filter p l) → d ∈ l ∧ p d = true.
Proof.
  intros Hd. apply subseteq_take, list_elem_of_In, filter_In in Hd as [Hin Hp].
  split; [by apply list_elem_of_In|exact Hp].
Qed.

(** A document that passes a filter passes each of its conditions. *)
Lemma conj_pred_elem (l : list (string * condition)) (P : document → bool)
    (k : string) (c : condition) (d : document) :
  conj_pred l = Some P → (k, c) ∈ l → P d = true →
  ∃ p, condition_pred c = Some p ∧ p (d !! k) = true.
Proof.
  revert P. induction l as [|[k' c'] l IH]; intros P HP Hin Hd.
  - by apply elem_of_nil in Hin.
  - simpl in HP.
    destruct (condition_pred c') as [p'|] eqn:Hc'; [|discriminate].
    destruct (conj_pred l) as [rest|] eqn:Hrest; [|discriminate].
    injection HP as <-. apply andb_true_iff in Hd as [Hd1 Hd2].
    apply elem_of_cons in Hin as [[= -> ->]|Hin]; eauto.
Qed.

Lemma query_pred_lookup (filter_dict : gmap string condition) (P : document → bool)
    (k : string) (c : condition) (d : document) :
  query_pred filter_dict = Some P → filter_dict !! k = Some c → P d = true →
  ∃ p, condition_pred c = Some p ∧ p (d !! k) = true.
Proof.
  intros HP Hk. eapply conj_pred_elem; [exact HP|].
  by apply elem_of_map_to_list.
Qed.

(** The loop over the documents touches the keys [_id] and [id] only. *)
Lemma normalize_id_lookup_other (d : document) (k : string) :
  k ≠ "_id" → k ≠ "id" → normalize_id d !! k = d !! k.
Proof.
  intros H1 H2. unfold normalize_id. destruct (d !! "_id"); [|reflexivity].
  by rewrite lookup_insert_ne, lookup_delete_ne.
Qed.


(** One step of a computation. *)
Lemma bind_run {A B} (m : M A) (k : A → M B) (w : World) :
  (m ≫= k) w = match m w with
               | (Returns a, w') => k a w'
               | (Raises e, w') => (Raises e, w')
               end.
Proof. reflexivity. Qed.

Lemma get_db_run (w : World) : get_db w = (Returns (db w), w).
Proof. reflexivity. Qed.

Lemma list_products_Returns_inv (q category brand : option string)
    (min_price max_price : option float) (limit : Z) (w w' : World) (r : document) :
  list_products q category brand min_price max_price limit w = (Returns r, w') →
  ∃ docs, r = items_response docs
          ∧ get_documents "product"
              (list_products_query q category brand min_price max_price) limit w
            = (Returns docs, w').
Proof.
  unfold list_products. rewrite bind_run, get_db_run.
  destruct (db w) as [d|]; [|discriminate].
  rewrite bind_run.
  destruct (get_documents _ _ _ w) as [[docs|e] w1]; [|discriminate].
  intros [= <- <-]. eauto.
Qed.

(** ** C2 *)

(** C2: when [list_products] is called with both bounds and returns, every
    document behind the returned items has a float [price] with
    [min_price <= price <= max_price], kept as it is in the returned item;
    and whenever a bound is supplied, the filter has one condition on
    [price], the range made of the two parameters. *)
Theorem list_products_price_range (q category brand : option string)
    (min_price max_price : float) (limit : Z) (w w' : World) (r : document) :
  list_products q category brand (Some min_price) (Some max_price) limit w = (Returns r, w') →
  (∃ docs, r = items_response docs
     ∧ ∀ d, d ∈ docs →
         ∃ p, d !! "price" = Some (VFloat p)
              ∧ normalize_id d !! "price" = Some (VFloat p)
              ∧ (min_price <=? p)%float = true ∧ (p <=? max_price)%float = true)
  ∧ ∀ lower_bound upper_bound : option float,
      range_nonempty (RangeOps lower_bound upper_bound) = true →
      list_products_query q category brand lower_bound upper_bound !! "price"
      = Some (Range (RangeOps lower_bound upper_bound)).
Proof.
  intros Hrun. split.
  - destruct (list_products_Returns_inv _ _ _ _ _ _ _ _ _ Hrun) as (docs & -> & Hget).
    exists docs. split; [reflexivity|]. intros d Hd.
    destruct (get_documents_Returns_inv _ _ _ _ _ _ Hget) as (store & P & _ & _ & HP & ->).
    apply elem_of_take_filter in Hd as [_ HPd].
    destruct (query_pred_lookup _ P "price" _ d HP
                (list_products_query_price q category brand (Some min_price) (Some max_price))
                HPd) as (p & Hp & Hpd).
    cbn [condition_pred range_nonempty op_gte op_lte] in Hp. injection Hp as <-.
    destruct (d !! "price") as [[]|] eqn:Hprice; try discriminate.
    exists f. rewrite normalize_id_lookup_other by discriminate.
    apply andb_true_iff in Hpd as [? ?]. auto.
  - intros lo hi Hne. rewrite list_products_query_price. by rewrite Hne.
Qed.

(** ** C7 *)

Lemma get_wishlist_Returns_inv (user_email : string) (limit : Z) (w w' : World)
    (r : document) :
  get_wishlist user_email limit w = (Returns r, w') →
  ∃ docs, r = items_response docs
          ∧ get_documents "wishlist" {[ "user_email" := Equals user_email ]} limit w
            = (Returns docs, w').
Proof.
  unfold get_wishlist. rewrite bind_run.
  destruct (get_documents _ _ _ w) as [[docs|e] w1]; [|discriminate].
  intros [= <- <-]. eauto.
Qed.


(** C7: [GET /api/wishlist] without [user_email] fails with a validation
    error (status 422) and does not touch the world; with [user_email]
    supplied, every document behind the returned items has exactly that
    string as its [user_email], and the returned item keeps it. *)
Theorem get_wishlist_user_email :
  (∀ (limit : option Z) (w : World),
      GET_wishlist None limit w
      = (Raises (RequestValidationError [ErrorDetails [Key "query"; Key "user_email"] missing VNone]), w)
      ∧ status_of (GET_wishlist None limit w).1 = 422%Z)
  ∧ (∀ (user_email : string) (limit : option Z) (w w' : World) (r : document),
      GET_wishlist (Some user_email) limit w = (Returns r, w') →
      ∃ docs, r = items_response docs
        ∧ ∀ d, d ∈ docs →
            d !! "user_email" = Some (VStr user_email)
            ∧ normalize_id d !! "user_email" = Some (VStr user_email)).
Proof.
  split.
  - intros limit w. split; reflexivity.
  - intros user_email limit w w' r Hrun.
    change (get_wishlist user_email (default 100%Z limit) w = (Returns r, w')) in Hrun.
    destruct (get_wishlist_Returns_inv _ _ _ _ _ Hrun) as (docs & -> & Hget).
    exists docs. split; [reflexivity|]. intros d Hd.
    destruct (get_documents_Returns_inv _ _ _ _ _ _ Hget) as (store & P & _ & _ & HP & ->).
    apply elem_of_take_filter in Hd as [_ HPd].
    destruct (query_pred_lookup _ P "user_email" (Equals user_email) d HP
                (lookup_singleton_eq _ _) HPd) as (p & Hp & Hpd).
    cbn [condition_pred range_nonempty op_gte op_lte] in Hp. injection Hp as <-.
    clear HP Hget Hrun.
    destruct (d !! "user_email") as [[]|] eqn:Hmail; try discriminate Hpd.
    apply String.eqb_eq in Hpd as ->.
    rewrite normalize_id_lookup_other by discriminate. auto.
Qed.

(** ** C3 *)

Lemma dot_is_metachar (c : ascii) : Ascii.eqb c "." = true → metachar c = true.
Proof. intros E. apply Ascii.eqb_eq in E as ->. reflexivity. Qed.

(** A pattern without metacharacters is the sequence of its characters. *)
Lemma parse_plain_literals (q : string) :
  plain q = true → parse_plain q = Some (literals q).
Proof.
  induction q as [|c q IH]; [reflexivity|].
  cbn [plain parse_plain literals]. intros [Hc Hq]%andb_true_iff.
  rewrite (IH Hq). unfold parse_atom.
  destruct (Ascii.eqb c ".") eqn:Hdot.
  - apply dot_is_metachar in Hdot. rewrite Hdot in Hc. discriminate.
  - apply negb_true_iff in Hc. by rewrite Hc.
Qed.

Lemma matches_here_literals (q t : string) :
  matches_here true (literals q) t = true
  ↔ ∃ post, lower_string t = lower_string q +:+ post.
Proof.
  revert t. induction q as [|c q IH]; intros t.
  - cbn. split; eauto.
  - destruct t as [|c' t]; cbn [literals matches_here lower_string String.append].
    + split; [discriminate|]. intros [post Hpost]. discriminate.
    + cbn [atom_matches]. rewrite andb_true_iff, IH, Ascii.eqb_eq. split.
      * intros [-> [post ->]]. eauto.
      * intros [post [= -> ->]]. eauto.
Qed.

(** On a pattern of ordinary characters the caseless search is the
    case-insensitive substring test. *)
Lemma search_plain_literals (q t : string) :
  search_plain true (literals q) t = true ↔ substring_ci q t.
Proof.
  unfold substring_ci. induction t as [|c t IH]; cbn [search_plain].
  - rewrite orb_false_r, matches_here_literals. split.
    + intros [post Hpost]. exists "", post. exact Hpost.
    + intros (pre & post & Hpre). destruct pre; [eauto|discriminate].
  - rewrite orb_true_iff, matches_here_literals, IH. split.
    + intros [[post Hpost]|(pre & post & Hpre)].
      * exists "", post. exact Hpost.
      * exists (String (lower c) pre), post. cbn. by rewrite Hpre.
    + intros (pre & post & Hpre). destruct pre as [|a pre].
      * left. eauto.
      * right. cbn in Hpre. injection Hpre as _ Hpre. eauto.
Qed.

Lemma regex_compile_plain (q : string) :
  plain q = true → regex_compile q "i" = Some (search_plain true (literals q)).
Proof. intros Hq. unfold regex_compile. by rewrite (parse_plain_literals q Hq). Qed.

Lemma query_pred_singleton (k : string) (c : condition) (p : option value → bool) :
  condition_pred c = Some p →
  query_pred {[ k := c ]} = Some (λ d, p (d !! k) && true).
Proof.
  intros Hc. unfold query_pred. rewrite map_to_list_singleton.
  cbn [conj_pred]. by rewrite Hc.
Qed.

Lemma list_products_query_title (q : string) (category brand : option string)
    (min_price max_price : option float) :
  q ≠ "" →
  list_products_query (Some q) category brand min_price max_price !! "title"
  = Some (Regex q "i").
Proof.
  destruct q as [|c q]; [done|]. intros _. unfold list_products_query.
  cbn [truthy]. destruct (truthy category), (truthy brand);
    destruct (range_nonempty _);
    repeat (rewrite lookup_insert_ne by discriminate); apply lookup_insert_eq.
Qed.

(** The conditions of a filter are conjunctive in whatever order the
    store reads them. *)
Lemma conj_pred_Permutation (l l' : list (string * condition)) :
  l ≡ₚ l' →
  match conj_pred l, conj_pred l' with
  | Some P, Some P' => ∀ d, P d = P' d
  | None, None => True
  | _, _ => False
  end.
Proof.
  induction 1 as [|[k c] l l' Hperm IH|[k c] [k' c'] l|l l' l'' _ IH1 _ IH2];
    cbn [conj_pred].
  - done.
  - destruct (condition_pred c), (conj_pred l), (conj_pred l'); try done.
    intros d. by rewrite IH.
  - destruct (condition_pred c), (condition_pred c'), (conj_pred l); try done.
    intros d. by rewrite !andb_assoc, (andb_comm (b0 _)).
  - destruct (conj_pred l), (conj_pred l'), (conj_pred l''); try done.
    intros d. by rewrite IH1.
Qed.

Lemma query_pred_insert (k : string) (c : condition) (filter_dict : gmap string condition)
    (p : option value → bool) (P0 : document → bool) :
  filter_dict !! k = None → condition_pred c = Some p → query_pred filter_dict = Some P0 →
  ∃ P, query_pred (<[k := c]> filter_dict) = Some P ∧ ∀ d, P d = p (d !! k) && P0 d.
Proof.
  unfold query_pred. intros Hk Hc HP0.
  pose proof (conj_pred_Permutation _ _ (map_to_list_insert filter_dict k c Hk)) as Hperm.
  cbn [conj_pred] in Hperm. rewrite Hc, HP0 in Hperm.
  destruct (conj_pred (map_to_list (<[k := c]> filter_dict))) as [P|]; [eauto|done].
Qed.

Lemma conj_pred_Some (l : list (string * condition)) :
  Forall (uncurry (λ _ c, is_Some (condition_pred c))) l → is_Some (conj_pred l).
Proof.
  induction 1 as [|[k c] l [p Hp] _ [P HP]]; cbn [conj_pred]; [eauto|].
  cbn in Hp. rewrite Hp, HP. eauto.
Qed.

(** Without [q] the filter of [list_products] has no condition on the title,
    and the store accepts it. *)
Lemma list_products_query_others (category brand : option string)
    (min_price max_price : option float) :
  list_products_query None category brand min_price max_price !! "title" = None
  ∧ is_Some (query_pred (list_products_query None category brand min_price max_price)).
Proof.
  split.
  - unfold list_products_query. cbn [truthy].
    destruct (truthy category), (truthy brand), (range_nonempty _);
      repeat (rewrite lookup_insert_ne by discriminate); apply lookup_empty.
  - apply conj_pred_Some, map_Forall_to_list.
    unfold list_products_query. cbn [truthy].
    destruct (truthy category), (truthy brand), (range_nonempty _) eqn:Hr;
      repeat (apply map_Forall_insert_2; [cbn [condition_pred]; rewrite ?Hr; eauto|]);
      apply map_Forall_empty.
Qed.

(** With a non-empty [q] it is that filter and the pattern on the title. *)
Lemma list_products_query_with_q (q : string) (category brand : option string)
    (min_price max_price : option float) :
  q ≠ "" →
  list_products_query (Some q) category brand min_price max_price
  = <["title" := Regex q "i"]>
      (list_products_query None category brand min_price max_price).
Proof.
  destruct q as [|a q]; [done|]. intros _. unfold list_products_query. cbn [truthy].
  destruct (truthy category), (truthy brand), (range_nonempty _);
    by rewrite ?(insert_insert_ne _ "title") by discriminate.
Qed.

(** C3, for the strings whose reading does not depend on the pattern
    language.  Let [q] be without metacharacters and the store available;
    [others] is the filter that the call builds from its other parameters
    and [all] the one it sends.  Then [list_products] returns, and:
    - a document passes [all] exactly when it passes [others] and, unless
      [q] is empty (the title is then not looked at), its title is a string
      that has [q] as a case-insensitive substring;
    - every document behind a returned item is a stored product that passes
      [all];
    - when the stored products that pass [all] number at most [limit], each
      of them is behind a returned item. *)
Theorem list_products_text_search (q : string) (category brand : option string)
    (min_price max_price : option float) (limit : Z) (w : World) (store : Database) :
  plain q = true → db w = Some store → outage store = None →
  ∃ (others all : document → bool) docs w',
    query_pred (list_products_query None category brand min_price max_price) = Some others
    ∧ query_pred (list_products_query (Some q) category brand min_price max_price)
      = Some all
    ∧ (∀ d, all d = true
            ↔ others d = true
              ∧ (q = "" ∨ ∃ t, d !! "title" = Some (VStr t) ∧ substring_ci q t))
    ∧ list_products (Some q) category brand min_price max_price limit w
      = (Returns {[ "items" := VList (VDict <$> (normalize_id <$> docs)) ]}, w')
    ∧ (∀ d, d ∈ docs → d ∈ documents_of store "product" ∧ all d = true)
    ∧ ((List.length (List.filter all (documents_of store "product")) ≤ Z.to_nat limit)%nat →
       ∀ d, d ∈ documents_of store "product" → all d = true → d ∈ docs).
Proof.
  intros Hplain Hdb Hup.
  destruct (list_products_query_others category brand min_price max_price)
    as [Htitle [others Hothers]].
  assert (Hall : ∃ all,
            query_pred (list_products_query (Some q) category brand min_price max_price)
            = Some all
            ∧ ∀ d, all d = true
                   ↔ others d = true
                     ∧ (q = "" ∨ ∃ t, d !! "title" = Some (VStr t) ∧ substring_ci q t)).
  { destruct (decide (q = "")) as [->|Hq].
    - exists others. split; [exact Hothers|]. intros d. split; [auto|by intros [? _]].
    - rewrite (list_products_query_with_q q _ _ _ _ Hq).
      destruct (query_pred_insert "title" (Regex q "i") _
                  (λ fv, match fv with
                         | Some (VStr t) => search_plain true (literals q) t
                         | _ => false
                         end) others Htitle) as (all & Hall & Hiff).
      { cbn [condition_pred]. by rewrite (regex_compile_plain q Hplain). }
      { exact Hothers. }
      exists all. split; [exact Hall|]. intros d. rewrite Hiff, andb_true_iff. split.
      + intros [Ht Ho]. split; [exact Ho|]. right.
        destruct (d !! "title") as [[]|]; try discriminate Ht.
        eexists; split; [reflexivity|]. by apply search_plain_literals.
      + intros [Ho [->|(t & -> & Hsub)]]; [done|].
        split; [by apply search_plain_literals|exact Ho]. }
  destruct Hall as (all & Hall & Hiff).
  exists others, all, (take (Z.to_nat limit) (List.filter all (documents_of store "product"))).
  eexists. split; [exact Hothers|]. split; [exact Hall|]. split; [exact Hiff|]. split.
  { unfold list_products. rewrite bind_run, get_db_run, Hdb, bind_run.
    rewrite (get_documents_available _ _ _ _ store all Hdb Hup Hall). reflexivity. }
  split.
  - intros d Hd. by apply elem_of_take_filter in Hd.
  - intros Hlen d Hd Hpass. rewrite take_ge by exact Hlen.
    apply list_elem_of_In, filter_In. split; [by apply list_elem_of_In|exact Hpass].
Qed.

(** ** C5 *)

Lemma get_documents_unavailable (collection : string) (filter_dict : gmap string condition)
    (limit : Z) (w : World) :
  store_unavailable w →
  ∃ e, get_documents collection filter_dict limit w
       = (Raises (Other e), logged (CallGetDocuments collection filter_dict limit) w).
Proof.
  unfold store_unavailable, get_documents. intros Hw.
  rewrite bind_run. cbn [log]. rewrite bind_run, get_db_run. cbn [logged db].
  destruct (db w) as [d|]; [|eauto].
  destruct Hw as [e ->]. eauto.
Qed.

Lemma create_document_unavailable {A} `{Model A} (collection : string) (data : A)
    (w : World) :
  store_unavailable w →
  ∃ e, create_document collection data w
       = (Raises (Other e), logged (CallCreateDocument collection (model_dump data)) w).
Proof.
  unfold store_unavailable, create_document. intros Hw.
  cbv zeta. rewrite bind_run. cbn [log]. rewrite bind_run, get_db_run. cbn [logged db].
  destruct (db w) as [d|]; [|eauto].
  destruct Hw as [e ->]. eauto.
Qed.

Lemma status_of_Other (e : PyException) : status_of (Raises (Other e)) = 500%Z.
Proof. reflexivity. Qed.

(** C5: with the store unavailable -- [db] is [None], or the store cannot be
    reached -- every list and create operation raises, the response status is
    in the 5xx class, and the store handle is left as it was. *)
Theorem data_operations_fail_when_store_unavailable (c : data_call) (w : World) :
  store_unavailable w →
  ∃ e w', run_call c w = (Raises e, w')
          ∧ (500 ≤ status_of (run_call c w).1 < 600)%Z
          ∧ db w' = db w.
Proof.
  intros Hw.
  assert (Hlist : ∀ collection filter_dict limit,
            ∃ e w', (get_documents collection filter_dict limit
                       ≫= λ docs, mret (items_response docs)) w = (Raises e, w')
                    ∧ (500 ≤ status_of
                                ((get_documents collection filter_dict limit
                                    ≫= λ docs, mret (items_response docs)) w).1 < 600)%Z
                    ∧ db w' = db w).
  { intros. rewrite bind_run.
    destruct (get_documents_unavailable collection filter_dict limit w Hw) as [e ->].
    eexists _, _. split; [reflexivity|]. split; [cbn; lia|reflexivity]. }
  assert (Hcreate : ∀ A (HA : Model A) collection (data : A),
            ∃ e w', (create_document collection data
                       ≫= λ new_id, mret (id_response new_id)) w = (Raises e, w')
                    ∧ (500 ≤ status_of
                                ((create_document collection data
                                    ≫= λ new_id, mret (id_response new_id)) w).1 < 600)%Z
                    ∧ db w' = db w).
  { intros. rewrite bind_run.
    destruct (create_document_unavailable collection data w Hw) as [e ->].
    eexists _, _. split; [reflexivity|]. split; [cbn; lia|reflexivity]. }
  destruct c as [[q category brand min_price max_price limit|limit|user_email limit
                 |user_email limit]
                |[product|category|item|order]];
    cbn [run_call run_list run_create];
    try apply Hlist; try apply Hcreate.
  unfold list_products. rewrite bind_run, get_db_run.
  destruct (db w) as [d|] eqn:Hdb.
  - apply Hlist.
  - eexists _, _. split; [reflexivity|]. split; [cbn; lia|exact Hdb].
Qed.

(** ** C4 *)

Lemma listing_Returns_inv (collection : string) (filter_dict : gmap string condition)
    (limit : Z) (w w' : World) (r : document) :
  (get_documents collection filter_dict limit ≫= λ docs, mret (items_response docs)) w
  = (Returns r, w') →
  ∃ docs, r = items_response docs
          ∧ get_documents collection filter_dict limit w = (Returns docs, w').
Proof.
  rewrite bind_run.
  destruct (get_documents _ _ _ w) as [[docs|e] w1]; [|discriminate].
  intros [= <- <-]. eauto.
Qed.

(** A list operation that returns has called the accessor with its
    collection, filter and limit, and answers with what the accessor found,
    each document converted. *)
Lemma run_list_found (c : list_call) (w w' : World) (r : document) :
  run_list c w = (Returns r, w') →
  ∃ docs,
    get_documents (collection_of c) (filter_of c) (limit_of c) w = (Returns docs, w')
    ∧ r = items_response docs.
Proof.
  intros Hrun.
  destruct c as [q category brand min_price max_price limit|limit|user_email limit
                |user_email limit]; cbn [run_list collection_of filter_of limit_of] in *;
    [apply list_products_Returns_inv in Hrun as (docs & -> & Hget)
    |apply listing_Returns_inv in Hrun as (docs & -> & Hget)..]; eauto.
Qed.

(** What the loop does to one document. *)
Lemma normalize_id_spec (d : document) :
  (∀ oid, d !! "_id" = Some oid →
          normalize_id d !! "_id" = None
          ∧ normalize_id d !! "id" = Some (VStr (py_str oid)))
  ∧ (∀ k, k ≠ "_id" → k ≠ "id" → normalize_id d !! k = d !! k).
Proof.
  split; [|apply normalize_id_lookup_other].
  intros oid Hoid. unfold normalize_id. rewrite Hoid. split.
  - rewrite lookup_insert_ne by discriminate. apply lookup_delete_eq.
  - apply lookup_insert_eq.
Qed.

(** *** The round trip of a created document *)

(** A dumped record that has neither an [_id] nor an [id] of its own comes
    back from the loop with all its fields and the identifier as [id]. *)
Lemma normalize_id_created (doc : document) (oid : value) :
  doc !! "_id" = None →
  normalize_id (<["_id" := oid]> doc) = <["id" := VStr (py_str oid)]> doc.
Proof.
  intros Hnone. unfold normalize_id. rewrite lookup_insert_eq.
  by rewrite delete_insert_eq, delete_id.
Qed.

Lemma model_dump_Product_keys (p : Product.t) :
  model_dump p !! "_id" = None ∧ model_dump p !! "id" = None.
Proof. split; reflexivity. Qed.

Lemma model_dump_Category_keys (c : Category.t) :
  model_dump c !! "_id" = None ∧ model_dump c !! "id" = None.
Proof. split; reflexivity. Qed.

Lemma model_dump_Wishlist_keys (x : Wishlist.t) :
  model_dump x !! "_id" = None ∧ model_dump x !! "id" = None.
Proof. split; reflexivity. Qed.

Lemma model_dump_Order_keys (o : Order.t) :
  model_dump o !! "_id" = None ∧ model_dump o !! "id" = None.
Proof. split; reflexivity. Qed.

Lemma query_pred_empty : query_pred ∅ = Some (λ _, true).
Proof. unfold query_pred. by rewrite map_to_list_empty. Qed.

Lemma filter_all {A} (l : list A) : List.filter (λ _, true) l = l.
Proof. induction l as [|a l IH]; [reflexivity|]. cbn. by rewrite IH. Qed.


(** ** C6 *)

Lemma substring_length_le (n m : nat) (s : string) :
  (String.length (substring n m s) ≤ m)%nat.
Proof.
  revert n m. induction s as [|c s IH]; intros n m.
  - destruct n, m; cbn; lia.
  - destruct n as [|n].
    + destruct m as [|m]; cbn; [lia|]. specialize (IH 0%nat m). lia.
    + cbn. apply IH.
Qed.

Lemma getenv_run (k : string) (w : World) : getenv k w = (Returns (environ w !! k), w).
Proof. reflexivity. Qed.

Lemma try_except_run {A} (body : M A) (handler : exception → M A) (w : World) :
  try_except body handler w = match body w with
                              | (Returns a, w') => (Returns a, w')
                              | (Raises e, w') => handler e w'
                              end.
Proof. reflexivity. Qed.

Lemma mret_run {A} (a : A) (w : World) : (mret a : M A) w = (Returns a, w).
Proof. reflexivity. Qed.

Lemma raise_run {A} (e : exception) (w : World) : raise (A:=A) e w = (Raises e, w).
Proof. reflexivity. Qed.

Ltac step_M :=
  repeat first
    [ rewrite bind_run | rewrite try_except_run | rewrite get_db_run
    | rewrite getenv_run | rewrite mret_run | rewrite raise_run ].

Lemma list_collection_names_cases (d : Database) (w : World) :
  (∃ e, list_collection_names d w = (Raises (Other e), logged CallListCollectionNames w)
        ∧ outage d = Some e)
  ∨ (list_collection_names d w
     = (Returns (map_to_list (collections d)).*1, logged CallListCollectionNames w)
     ∧ outage d = None).
Proof.
  unfold list_collection_names. rewrite bind_run. cbn [log].
  destruct (outage d); [left|right]; eauto.
Qed.

Lemma renderable_env_status (v : option string) : renderable (env_status v) = true.
Proof. unfold env_status. by destruct (truthy v). Qed.

(** The runs of [test_database]: without a handle; with a handle whose name
    is missing, is read, or raises (an [AttributeError], which [hasattr]
    swallows, or another exception), and then with the collections listed or
    not. *)
Ltac open_test_database w :=
  let d := fresh "d" in
  let e0 := fresh "e0" in
  let e1 := fresh "e1" in
  unfold test_database; cbv zeta; step_M;
  destruct (db w) as [d|] eqn:Hdb; step_M;
  [ unfold hasattr_name, getattr_name;
    destruct (db_name d) as [|name|e0] eqn:Hname;
    [ | | destruct (is_instance e0 "AttributeError") eqn:Hinst ]; step_M;
    try (destruct (list_collection_names_cases d w) as [(e1 & Hrun & Hup)|[Hrun Hup]];
         rewrite Hrun; step_M)
  | ].

Ltac read_response :=
  repeat (rewrite lookup_insert_ne by discriminate);
  first [ apply lookup_insert_eq | reflexivity ].

Ltac render :=
  repeat (apply renderable_insert;
          [ first [ apply renderable_env_status | apply renderable_strs | reflexivity ] | ]);
  reflexivity.

Ltac same_handle Hd := first [ discriminate Hd | injection Hd as <- ].

(** C6: [test_database] returns in every world -- it never raises -- and its
    response can be rendered, so it is a 200.  Its [database] entry is a
    status string: the not-initialised message when [db] is [None]; when
    reading the name of the handle raises an [e] that [hasattr] does not
    swallow, or when listing the collections raises [e], a fixed prefix
    followed by the first 50 characters of [str(e)], a text of at most 50
    characters; and the working message otherwise. *)
Theorem test_database_never_raises (w : World) :
  ∃ response w' status,
    test_database w = (Returns response, w')
    ∧ status_of (test_database w).1 = 200%Z
    ∧ response !! "database" = Some (VStr status)
    ∧ (db w = None → status = "⚠️  Available but not initialized")
    ∧ (∀ d e, db w = Some d → db_name d = AttrRaises e →
         is_instance e "AttributeError" = false →
         status = "❌ Error: " +:+ substring 0 50 (exc_str e)
         ∧ (String.length (substring 0 50 (exc_str e)) ≤ 50)%nat)
    ∧ (∀ d e, db w = Some d →
         (∀ e', db_name d = AttrRaises e' → is_instance e' "AttributeError" = true) →
         outage d = Some e →
         status = "⚠️  Connected but Error: " +:+ substring 0 50 (exc_str e)
         ∧ (String.length (substring 0 50 (exc_str e)) ≤ 50)%nat)
    ∧ (∀ d, db w = Some d →
         (∀ e', db_name d = AttrRaises e' → is_instance e' "AttributeError" = true) →
         outage d = None →
         status = "✅ Connected & Working").
Proof.
  open_test_database w.
  all: eexists _, _, _; (split; [reflexivity|]);
    (split; [apply status_of_Returns; render|]);
    (split; [read_response|]);
    (split; [intros Hnone; first [discriminate Hnone|reflexivity]|]);
    (split;
       [intros d' e Hd He Hi; same_handle Hd; rewrite Hname in He;
        first [discriminate He|injection He as <-];
        first [rewrite Hinst in Hi; discriminate Hi
              |split; [reflexivity|apply substring_length_le]]|]);
    (split;
       [intros d' e Hd Hall He; same_handle Hd;
        first [specialize (Hall _ Hname); rewrite Hinst in Hall; discriminate Hall
              |rewrite Hup in He;
               first [discriminate He
                     |injection He as <-; split; [reflexivity|apply substring_length_le]]]|]);
    intros d' Hd Hall He; same_handle Hd;
    first [specialize (Hall _ Hname); rewrite Hinst in Hall; discriminate Hall
          |rewrite Hup in He; first [discriminate He|reflexivity]].
Qed.

Lemma subseteq_take_ge_filter (p : document → bool) (n : nat) (l : list document)
    (d : document) :
  p d = true → (List.length l < n)%nat → d ∈ take n (List.filter p (l ++ [d])).
Proof.
  intros Hp Hlen. rewrite take_ge.
  - apply list_elem_of_In, filter_In. split; [|exact Hp].
    apply in_or_app. right. by left.
  - etrans; [apply filter_length_le|]. rewrite length_app. cbn. lia.
Qed.

(** ** C4, continued: creating, then listing *)

Lemma dumped_keys (c : create_call) :
  dumped c !! "_id" = None ∧ dumped c !! "id" = None.
Proof. destruct c; split; reflexivity. Qed.

Lemma run_create_available (c : create_call) (w : World) (store : Database) :
  db w = Some store → outage store = None →
  run_create c w
  = (Returns (id_response (py_str (VObjectId (next_oid store)))),
     {| db := Some {| db_name := db_name store;
                      outage := outage store;
                      collections :=
                        <[created_in c :=
                            (documents_of store (created_in c)
                             ++ [<["_id" := VObjectId (next_oid store)]> (dumped c)])%list]>
                          (collections store);
                      next_oid := N.succ (next_oid store) |};
        environ := environ w;
        trace := trace w ++ [CallCreateDocument (created_in c) (dumped c)] |}).
Proof.
  intros Hdb Hup.
  destruct c; cbn [run_create created_in dumped];
    unfold create_product, create_category, add_to_wishlist, create_order;
    rewrite bind_run, (create_document_available _ _ _ store Hdb Hup); reflexivity.
Qed.

(** The filter of the matching list operation lets the stored record
    through. *)
Lemma listing_filter_accepts (c : create_call) (oid : value) :
  ∃ filter_dict p,
    (∀ limit w store, db w = Some store →
        run_list (listing_of c limit) w
        = (get_documents (created_in c) filter_dict limit
             ≫= λ docs, mret (items_response docs)) w)
    ∧ query_pred filter_dict = Some p
    ∧ p (<["_id" := oid]> (dumped c)) = true.
Proof.
  destruct c as [product|category|item|order]; cbn [listing_of run_list created_in dumped].
  - exists ∅, (λ _, true). split; [|split; [apply query_pred_empty|reflexivity]].
    intros limit w store Hdb. unfold list_products. by rewrite bind_run, get_db_run, Hdb.
  - exists ∅, (λ _, true). split; [|split; [apply query_pred_empty|reflexivity]].
    reflexivity.
  - eexists {[ "user_email" := Equals (Wishlist.user_email item) ]}, _.
    split; [|split; [apply query_pred_singleton; reflexivity|]].
    + reflexivity.
    + cbn beta. rewrite lookup_insert_ne by discriminate.
      change (model_dump item !! "user_email") with (Some (VStr (Wishlist.user_email item))).
      cbv beta iota. by rewrite String.eqb_refl.
  - eexists {[ "user_email" := Equals (Order.user_email order) ]}, _.
    split; [|split; [apply query_pred_singleton; reflexivity|]].
    + reflexivity.
    + cbn beta. rewrite lookup_insert_ne by discriminate.
      change (model_dump order !! "user_email") with (Some (VStr (Order.user_email order))).
      cbv beta iota. by rewrite String.eqb_refl.
Qed.

(** A record that was just created is behind one of the items of the
    matching list operation when the limit leaves room for it: the item is
    the dumped record with the returned identifier as its [id]. *)
Lemma created_document_listed (c : create_call) (limit : Z) (w : World)
    (store : Database) :
  db w = Some store → outage store = None →
  (List.length (documents_of store (created_in c)) < Z.to_nat limit)%nat →
  ∃ new_id w1 items w2,
    run_create c w = (Returns {[ "id" := VStr new_id ]}, w1)
    ∧ run_list (listing_of c limit) w1 = (Returns {[ "items" := VList items ]}, w2)
    ∧ VDict (<["id" := VStr new_id]> (dumped c)) ∈ items
    ∧ <["id" := VStr new_id]> (dumped c) !! "_id" = None
    ∧ ∀ k v, dumped c !! k = Some v → <["id" := VStr new_id]> (dumped c) !! k = Some v.
Proof.
  intros Hdb Hup Hlen.
  destruct (listing_filter_accepts c (VObjectId (next_oid store)))
    as (filter_dict & p & Hrun & Hp & Hstored).
  eexists _, _, _, _. split; [apply (run_create_available c w store Hdb Hup)|].
  split.
  { erewrite Hrun by reflexivity. rewrite bind_run.
    erewrite get_documents_available; [reflexivity|reflexivity|exact Hup|exact Hp]. }
  split.
  - rewrite documents_of_insert.
    apply list_elem_of_fmap. eexists; split; [reflexivity|].
    apply list_elem_of_fmap.
    exists (<["_id" := VObjectId (next_oid store)]> (dumped c)). split.
    + by rewrite normalize_id_created by apply dumped_keys.
    + apply subseteq_take_ge_filter; [exact Hstored|exact Hlen].
  - split.
    + rewrite lookup_insert_ne by discriminate. apply dumped_keys.
    + intros k v Hk. destruct (decide (k = "id")) as [->|Hne].
      * by rewrite (proj2 (dumped_keys c)) in Hk.
      * by rewrite lookup_insert_ne.
Qed.

(** C4, as the loop has it.  When a list operation returns, its [items] are
    the documents that the store accessor found for the collection, filter
    and limit of the operation, in that order, each passed through the loop:
    a document with an [_id] loses that key and gains [id], the string form
    of the identifier; a document without one is left as it is; every key
    other than these two has the value it has in the stored document; and
    when the stored document has no field [id] of its own, all its fields
    other than [_id] are in the item unchanged and the item has no other key
    but [id].  A stored field named [id] is overwritten.  A record that was
    just created comes back from the matching list operation with the
    returned identifier as [id], without [_id] and with every dumped field
    unchanged, when the limit leaves room for it. *)
Theorem listed_documents_normalized :
  (∀ (c : list_call) (w w' : World) (r : document),
     run_list c w = (Returns r, w') →
     ∃ store docs,
       db w = Some store
       ∧ get_documents (collection_of c) (filter_of c) (limit_of c) w = (Returns docs, w')
       ∧ (∀ d, d ∈ docs → d ∈ documents_of store (collection_of c))
       ∧ r = {[ "items" := VList (VDict <$> (normalize_id <$> docs)) ]}
       ∧ ∀ d, d ∈ docs →
           (∀ oid, d !! "_id" = Some oid →
                   normalize_id d !! "_id" = None
                   ∧ normalize_id d !! "id" = Some (VStr (py_str oid)))
           ∧ (d !! "_id" = None → normalize_id d = d)
           ∧ (∀ k, k ≠ "_id" → k ≠ "id" → normalize_id d !! k = d !! k)
           ∧ (d !! "id" = None →
              (∀ k v, k ≠ "_id" → d !! k = Some v → normalize_id d !! k = Some v)
              ∧ ∀ k v, normalize_id d !! k = Some v → k = "id" ∨ d !! k = Some v))
  ∧ (∀ (c : create_call) (limit : Z) (w : World) (store : Database),
       db w = Some store → outage store = None →
       (List.length (documents_of store (created_in c)) < Z.to_nat limit)%nat →
       ∃ new_id w1 items w2,
         run_create c w = (Returns {[ "id" := VStr new_id ]}, w1)
         ∧ run_list (listing_of c limit) w1 = (Returns {[ "items" := VList items ]}, w2)
         ∧ VDict (<["id" := VStr new_id]> (dumped c)) ∈ items
         ∧ <["id" := VStr new_id]> (dumped c) !! "_id" = None
         ∧ ∀ k v, dumped c !! k = Some v →
                  <["id" := VStr new_id]> (dumped c) !! k = Some v).
Proof.
  split; [|apply created_document_listed].
  intros c w w' r Hrun.
  apply run_list_found in Hrun as (docs & Hget & ->).
  destruct (get_documents_Returns_inv _ _ _ _ _ _ Hget) as (store & p & Hdb & _ & _ & Hdocs).
  exists store, docs. split; [exact Hdb|]. split; [exact Hget|].
  split; [|split; [reflexivity|]].
  - intros d Hd. rewrite Hdocs in Hd. by apply elem_of_take_filter in Hd as [Hd _].
  - intros d _. destruct (normalize_id_spec d) as [Hid Hother].
    split; [exact Hid|]. split; [|split; [exact Hother|]].
    + intros Hnone. unfold normalize_id. by rewrite Hnone.
    + intros Hnoid. split.
      * intros k v Hk Hv. destruct (decide (k = "id")) as [->|Hne]; [congruence|].
        by rewrite Hother.
      * intros k v Hv. destruct (decide (k = "id")) as [->|Hne]; [by left|right].
        destruct (decide (k = "_id")) as [->|Hne'].
        -- revert Hv. unfold normalize_id. destruct (d !! "_id") as [oid|] eqn:Hoid.
           ++ rewrite lookup_insert_ne by discriminate. by rewrite lookup_delete_eq.
           ++ by rewrite Hoid.
        -- by rewrite Hother in Hv.
Qed.

(** X1: a record that was just created is returned by the matching list
    operation when the limit leaves room for it: among the [items] of the
    response there is the dumped record with the identifier that the create
    operation returned as its [id], without [_id] and with every dumped
    field unchanged. *)
Theorem create_then_list_roundtrip (c : create_call) (limit : Z) (w : World)
    (store : Database) :
  db w = Some store → outage store = None →
  (List.length (documents_of store (created_in c)) < Z.to_nat limit)%nat →
  ∃ new_id w1 response w2 items item,
    run_create c w = (Returns {[ "id" := VStr new_id ]}, w1)
    ∧ run_list (listing_of c limit) w1 = (Returns response, w2)
    ∧ response !! "items" = Some (VList items)
    ∧ VDict item ∈ items
    ∧ item = <["id" := VStr new_id]> (dumped c)
    ∧ item !! "id" = Some (VStr new_id)
    ∧ item !! "_id" = None
    ∧ ∀ k v, dumped c !! k = Some v → item !! k = Some v.
Proof.
  intros Hdb Hup Hlen.
  destruct (created_document_listed c limit w store Hdb Hup Hlen)
    as (new_id & w1 & items & w2 & Hcreate & Hlist & Hin & Hnone & Hfields).
  exists new_id, w1, {[ "items" := VList items ]}, w2, items,
    (<["id" := VStr new_id]> (dumped c)).
  split; [exact Hcreate|]. split; [exact Hlist|]. split; [apply lookup_singleton_eq|].
  split; [exact Hin|]. split; [reflexivity|]. split; [apply lookup_insert_eq|]. auto.
Qed.

(** X2: a listing never has more items than [limit]. *)
Theorem listing_within_limit (c : list_call) (w w' : World) (r : document) :
  run_list c w = (Returns r, w') →
  ∃ docs limit,
    r = items_response docs
    ∧ limit = match c with
              | ListProducts _ _ _ _ _ limit | ListCategories limit
              | GetWishlist _ limit | ListOrders _ limit => limit
              end
    ∧ (List.length docs ≤ Z.to_nat limit)%nat.
Proof.
  intros Hrun.
  destruct c as [q category brand min_price max_price limit|limit|user_email limit
                |user_email limit]; cbn [run_list] in Hrun;
    [apply list_products_Returns_inv in Hrun as (docs & -> & Hget)
    |apply listing_Returns_inv in Hrun as (docs & -> & Hget)..];
    apply get_documents_Returns_inv in Hget as (store & p & _ & _ & _ & ->);
    eexists _, _; (split; [reflexivity|]); (split; [reflexivity|]);
    rewrite length_take; lia.
Qed.

(** ** The application as a whole: further properties *)

(** ** Every request *)

Lemma get_documents_cases (collection : string) (filter_dict : gmap string condition)
    (limit : Z) (w : World) :
  (∃ e, get_documents collection filter_dict limit w
        = (Raises (Other e), logged (CallGetDocuments collection filter_dict limit) w))
  ∨ (∃ docs, get_documents collection filter_dict limit w
             = (Returns docs, logged (CallGetDocuments collection filter_dict limit) w)).
Proof.
  unfold get_documents. rewrite bind_run. cbn [log]. rewrite bind_run, get_db_run.
  cbn [logged db].
  destruct (db w) as [d|]; [|left; eauto].
  destruct (outage d); [left; eauto|].
  destruct (query_pred filter_dict); [right|left]; eauto.
Qed.

(** A list operation fails before the accessor is called, or calls it once
    and fails or returns what it found. *)
Lemma run_list_cases (c : list_call) (w : World) :
  (run_list c w = (Raises (HTTPException 500 "Database unavailable"), w) ∧ db w = None)
  ∨ (∃ e call, run_list c w = (Raises (Other e), logged call w))
  ∨ (∃ docs call, run_list c w = (Returns (items_response docs), logged call w)).
Proof.
  assert (Hlisting : ∀ collection filter_dict limit,
            (∃ e call, (get_documents collection filter_dict limit
                          ≫= λ docs, mret (items_response docs)) w
                       = (Raises (Other e), logged call w))
            ∨ (∃ docs call, (get_documents collection filter_dict limit
                               ≫= λ docs, mret (items_response docs)) w
                            = (Returns (items_response docs), logged call w))).
  { intros. rewrite bind_run.
    destruct (get_documents_cases collection filter_dict limit w) as [[e ->]|[docs ->]];
      [left|right]; eauto. }
  destruct c as [q category brand min_price max_price limit|limit|user_email limit
                |user_email limit]; cbn [run_list]; try (right; apply Hlisting).
  unfold list_products. rewrite bind_run, get_db_run.
  destruct (db w) as [d|] eqn:Hdb; [right; apply Hlisting|left; auto].
Qed.

Lemma run_create_unavailable (c : create_call) (w : World) :
  store_unavailable w →
  ∃ e, run_create c w
       = (Raises (Other e), logged (CallCreateDocument (created_in c) (dumped c)) w).
Proof.
  intros Hw.
  destruct c; cbn [run_create created_in dumped];
    unfold create_product, create_category, add_to_wishlist, create_order;
    rewrite bind_run;
    match goal with
    | |- context [create_document ?coll ?data w] =>
        destruct (create_document_unavailable coll data w Hw) as [e ->]
    end; eauto.
Qed.

Lemma store_available_or_not (w : World) :
  store_unavailable w ∨ ∃ store, db w = Some store ∧ outage store = None.
Proof.
  unfold store_unavailable. destruct (db w) as [store|]; [|by left].
  destruct (outage store) eqn:Hup; [left|right]; eauto.
Qed.

(** What a request comes to: a static or diagnostic handler, a validation
    error, a list operation or a create operation. *)
Lemma serve_cases (r : request) (w : World) :
  (r = ReqRoot ∨ r = ReqSchema ∨ r = ReqTest)
  ∨ (∃ errors, serve r w = (Raises (RequestValidationError errors), w)
               ∧ accepted r = None ∧ listing r = None)
  ∨ (∃ c, listing r = Some c ∧ accepted r = None ∧ serve r w = run_list c w)
  ∨ (∃ c, accepted r = Some c ∧ listing r = None ∧ serve r w = run_create c w).
Proof.
  destruct r as [| |q category brand min_price max_price limit|body|limit|body
                |user_email limit|body|user_email limit|body|]; auto; right.
  - right; left. eauto.
  - cbn [serve accepted listing]. unfold POST_products.
    destruct (body_param validate_AddProductRequest body) as [product|errors];
      [right; right|left]; eauto.
  - right; left. eauto.
  - cbn [serve accepted listing]. unfold POST_categories.
    destruct (body_param validate_Category body) as [category|errors];
      [right; right|left]; eauto.
  - destruct user_email as [user_email|]; [right; left|left]; eauto.
  - cbn [serve accepted listing]. unfold POST_wishlist.
    destruct (body_param validate_Wishlist body) as [item|errors];
      [right; right|left]; eauto.
  - destruct user_email as [user_email|]; [right; left|left]; eauto.
  - cbn [serve accepted listing]. unfold POST_orders.
    destruct (body_param validate_Order body) as [order|errors];
      [right; right|left]; eauto.
Qed.

(** The diagnostic always returns a response that can be rendered; it leaves
    the store and the environment as they were and lists the collections at
    most once. *)
Lemma test_database_world (w : World) :
  ∃ response w',
    test_database w = (Returns response, w')
    ∧ db w' = db w ∧ environ w' = environ w
    ∧ (trace w' = trace w ∨ trace w' = (trace w ++ [CallListCollectionNames])%list)
    ∧ renderable (VDict response) = true.
Proof.
  open_test_database w.
  all: eexists _, _; (split; [reflexivity|]); cbn [db environ trace logged];
    rewrite ?Hdb; (split; [reflexivity|]); (split; [reflexivity|]);
    (split; [auto|render]).
Qed.

Lemma run_create_cases (c : create_call) (w : World) :
  (∃ e, run_create c w
        = (Raises (Other e), logged (CallCreateDocument (created_in c) (dumped c)) w))
  ∨ (∃ store, db w = Some store ∧ outage store = None
       ∧ run_create c w
         = (Returns (id_response (py_str (VObjectId (next_oid store)))),
            {| db := Some {| db_name := db_name store;
                             outage := outage store;
                             collections :=
                               <[created_in c :=
                                   (documents_of store (created_in c)
                                    ++ [<["_id" := VObjectId (next_oid store)]> (dumped c)])%list]>
                                 (collections store);
                             next_oid := N.succ (next_oid store) |};
               environ := environ w;
               trace := trace w ++ [CallCreateDocument (created_in c) (dumped c)] |})).
Proof.
  destruct (store_available_or_not w) as [Hw|(store & Hdb & Hup)].
  - left. by apply run_create_unavailable.
  - right. exists store. split; [exact Hdb|]. split; [exact Hup|].
    by apply run_create_available.
Qed.

Lemma renderable_items (docs : list document) :
  renderable (VDict (items_response docs)) = true
  ↔ ∀ d, d ∈ docs → renderable (VDict (normalize_id d)) = true.
Proof.
  rewrite renderable_VDict. unfold items_response. split.
  - intros Hall d Hd.
    specialize (Hall "items" _ (lookup_singleton_eq _ _)). cbn [renderable] in Hall.
    rewrite forallb_forall in Hall. apply Hall.
    apply list_elem_of_In, list_elem_of_fmap. eexists; split; [reflexivity|].
    apply list_elem_of_fmap. eauto.
  - intros Hall k v [<- <-]%lookup_singleton_Some. cbn [renderable].
    apply forallb_forall. intros v Hv.
    apply list_elem_of_In, list_elem_of_fmap in Hv as (d' & -> & Hd').
    apply list_elem_of_fmap in Hd' as (d & -> & Hd). by apply Hall.
Qed.

Lemma renderable_id_response (new_id : string) :
  renderable (VDict (id_response new_id)) = true.
Proof.
  apply renderable_VDict. unfold id_response. by intros k v [<- <-]%lookup_singleton_Some.
Qed.

Lemma status_of_Returns_cases (response : document) :
  status_of (Returns response) = 200%Z ∨ status_of (Returns response) = 500%Z.
Proof. unfold status_of. destruct (renderable _); auto. Qed.

Lemma status_of_Returns_200 (response : document) :
  status_of (Returns response) = 200%Z ↔ renderable (VDict response) = true.
Proof. unfold status_of. by destruct (renderable _). Qed.

Lemma status_of_RequestValidationError (errors : list error_details) :
  status_of (Raises (RequestValidationError errors)) = 422%Z
  ∨ status_of (Raises (RequestValidationError errors)) = 500%Z.
Proof. unfold status_of. destruct (forallb _ _); auto. Qed.

Lemma read_root_status (w : World) : status_of (read_root w).1 = 200%Z.
Proof. reflexivity. Qed.

Lemma get_schema_info_status (w : World) : status_of (get_schema_info w).1 = 200%Z.
Proof. reflexivity. Qed.

(** X3: the status of the answer.  Every request is answered with a 200, a
    422 or a 5xx.  A request that returns and is not a listing -- a static
    route, the diagnostic, a create -- is a 200.  A listing that returns is a
    200 exactly when every document that the accessor found can be written
    as JSON once its identifier is converted; otherwise the answer is a 500
    although the handler returned. *)
Theorem serve_status (r : request) (w : World) :
  (status_of (serve r w).1 = 200%Z ∨ status_of (serve r w).1 = 422%Z
   ∨ (500 ≤ status_of (serve r w).1 < 600)%Z)
  ∧ (∀ response, (serve r w).1 = Returns response → listing r = None →
       status_of (serve r w).1 = 200%Z)
  ∧ (∀ response c, (serve r w).1 = Returns response → listing r = Some c →
       ∃ docs,
         get_documents (collection_of c) (filter_of c) (limit_of c) w
         = (Returns docs, (serve r w).2)
         ∧ response !! "items" = Some (VList (VDict <$> (normalize_id <$> docs)))
         ∧ (status_of (serve r w).1 = 200%Z
            ↔ ∀ d, d ∈ docs → renderable (VDict (normalize_id d)) = true)).
Proof.
  destruct (serve_cases r w)
    as [[ -> | [ -> | -> ]]|[(errors & -> & _ & Hl)|[(c & Hl & _ & ->)|(c & _ & Hl & ->)]]].
  - cbn [serve listing]. rewrite read_root_status.
    split; [by left|]. split; [done|intros ? ? _ Hn; discriminate Hn].
  - cbn [serve listing]. rewrite get_schema_info_status.
    split; [by left|]. split; [done|intros ? ? _ Hn; discriminate Hn].
  - destruct (test_database_world w) as (response & w' & Hrun & _ & _ & _ & Hr).
    cbn [serve listing]. rewrite Hrun. cbn [fst].
    rewrite (status_of_Returns _ Hr). split; [by left|]. split; [done|discriminate].
  - cbn [fst]. split; [|split; discriminate].
    destruct (status_of_RequestValidationError errors) as [->| ->]; [auto|right; right; lia].
  - rewrite Hl. split; [|split; [discriminate|]].
    + destruct (run_list_cases c w) as [[ -> _]|[(e & call & ->)|(docs & call & ->)]];
        cbn [fst].
      * right; right. cbn. lia.
      * right; right. cbn. lia.
      * destruct (status_of_Returns_cases (items_response docs)) as [->| ->];
          [auto|right; right; lia].
    + intros response c' Hret [= <-].
      destruct (run_list c w) as [o w'] eqn:Hrun. cbn [fst snd] in *. subst o.
      apply run_list_found in Hrun as (docs & Hget & ->).
      exists docs. split; [exact Hget|]. split; [apply lookup_singleton_eq|].
      rewrite status_of_Returns_200. apply renderable_items.
  - rewrite Hl. split; [|split; [|discriminate]].
    + destruct (run_create_cases c w) as [[e ->]|(store & _ & _ & ->)]; cbn [fst].
      * right; right. cbn. lia.
      * left. apply status_of_Returns, renderable_id_response.
    + intros response Hret _.
      destruct (run_create_cases c w) as [[e He]|(store & _ & _ & He)];
        rewrite He in *; cbn [fst] in *; [discriminate Hret|].
      apply status_of_Returns, renderable_id_response.
Qed.

(** X4: a request answered with 422 has left the world as it was -- the
    store, the environment and the trace of accessor calls -- and it is a
    request whose parameters or body did not validate. *)
Theorem validation_error_leaves_world (r : request) (w : World) :
  status_of (serve r w).1 = 422%Z →
  (serve r w).2 = w ∧ accepted r = None ∧ listing r = None
  ∧ ∃ errors, (serve r w).1 = Raises (RequestValidationError errors).
Proof.
  destruct (serve_cases r w)
    as [[ -> | [ -> | -> ]]|[(errors & -> & Ha & Hl)|[(c & _ & _ & ->)|(c & _ & _ & ->)]]].
  - cbn [serve]. rewrite read_root_status. intros Hs. discriminate Hs.
  - cbn [serve]. rewrite get_schema_info_status. intros Hs. discriminate Hs.
  - destruct (test_database_world w) as (response & w' & Hrun & _ & _ & _ & Hr).
    cbn [serve]. rewrite Hrun. cbn [fst]. rewrite (status_of_Returns _ Hr).
    intros Hs. discriminate Hs.
  - eauto 10.
  - destruct (run_list_cases c w) as [[ -> _]|[(e & call & ->)|(docs & call & ->)]];
      cbn [fst]; [intros Hs; discriminate Hs..|].
    destruct (status_of_Returns_cases (items_response docs)) as [->| ->];
      intros Hs; discriminate Hs.
  - destruct (run_create_cases c w) as [[e ->]|(store & _ & _ & ->)];
      cbn [fst]; [intros Hs; discriminate Hs|].
    rewrite (status_of_Returns _ (renderable_id_response _)). intros Hs. discriminate Hs.
Qed.

(** X5: the store changes only when a create request returns: in every other
    case -- a read, a diagnostic, a request that fails for whatever reason --
    the store is as before.  The environment never changes. *)
Theorem only_successful_create_changes_store (r : request) (w : World) :
  environ (serve r w).2 = environ w
  ∧ (db (serve r w).2 = db w
     ∨ ∃ c response, accepted r = Some c ∧ (serve r w).1 = Returns response).
Proof.
  destruct (serve_cases r w)
    as [[ -> | [ -> | -> ]]|[(errors & -> & _)|[(c & _ & _ & ->)|(c & Hc & _ & ->)]]].
  - auto.
  - auto.
  - destruct (test_database_world w) as (response & w' & Hrun & Hdb & Henv & _).
    cbn [serve]. rewrite Hrun. auto.
  - auto.
  - destruct (run_list_cases c w) as [[ -> _]|[(e & call & ->)|(docs & call & ->)]]; auto.
  - destruct (run_create_cases c w) as [[e ->]|(store & _ & _ & ->)]; [auto|].
    split; [reflexivity|]. right. eauto.
Qed.

(** X6: a request makes at most one call to the store accessor. *)
Theorem at_most_one_store_call (r : request) (w : World) :
  trace (serve r w).2 = trace w
  ∨ ∃ call, trace (serve r w).2 = (trace w ++ [call])%list.
Proof.
  destruct (serve_cases r w)
    as [[ -> | [ -> | -> ]]|[(errors & -> & _)|[(c & _ & _ & ->)|(c & Hc & _ & ->)]]].
  - auto.
  - auto.
  - destruct (test_database_world w) as (response & w' & Hrun & _ & _ & [Ht|Ht] & _);
      cbn [serve]; rewrite Hrun; eauto.
  - auto.
  - destruct (run_list_cases c w) as [[ -> _]|[(e & call & ->)|(docs & call & ->)]]; eauto.
  - destruct (run_create_cases c w) as [[e ->]|(store & _ & _ & ->)]; eauto.
Qed.

(** The store after a request is the store before it, or the store before it
    with one document more. *)
Lemma only_store_change (r : request) (w : World) :
  db (serve r w).2 = db w
  ∨ ∃ c store,
      accepted r = Some c ∧ db w = Some store
      ∧ db (serve r w).2
        = Some {| db_name := db_name store;
                  outage := outage store;
                  collections :=
                    <[created_in c :=
                        (documents_of store (created_in c)
                         ++ [<["_id" := VObjectId (next_oid store)]> (dumped c)])%list]>
                      (collections store);
                  next_oid := N.succ (next_oid store) |}.
Proof.
  destruct (serve_cases r w)
    as [[ -> | [ -> | -> ]]|[(errors & -> & _)|[(c & _ & _ & ->)|(c & Hc & _ & ->)]]].
  - auto.
  - auto.
  - destruct (test_database_world w) as (response & w' & Hrun & Hdb & _).
    cbn [serve]. rewrite Hrun. auto.
  - auto.
  - destruct (run_list_cases c w) as [[ -> _]|[(e & call & ->)|(docs & call & ->)]]; auto.
  - destruct (run_create_cases c w) as [[e ->]|(store & Hdb & _ & ->)]; [auto|].
    right. eauto.
Qed.

Lemma documents_of_insert_ne (store : Database) (collection other : string)
    (docs : list document) (n : N) :
  collection ≠ other →
  documents_of {| db_name := db_name store; outage := outage store;
                  collections := <[collection := docs]> (collections store);
                  next_oid := n |} other
  = documents_of store other.
Proof. intros Hne. unfold documents_of. cbn. by rewrite lookup_insert_ne. Qed.

(** X7: when a create request returns, its body validated to a record and the
    store was available; the collection of that record has gained one
    document at its end, the dumped record under the next identifier of the
    store; every other collection is as before; the response holds the
    string form of that identifier. *)
Theorem successful_create_appends_one (r : request) (w : World) (c : create_call)
    (response : document) :
  accepted r = Some c → (serve r w).1 = Returns response →
  ∃ store store',
    db w = Some store ∧ outage store = None ∧ db (serve r w).2 = Some store'
    ∧ documents_of store' (created_in c)
      = (documents_of store (created_in c)
         ++ [<["_id" := VObjectId (next_oid store)]> (dumped c)])%list
    ∧ (∀ other, other ≠ created_in c →
         documents_of store' other = documents_of store other)
    ∧ next_oid store' = N.succ (next_oid store)
    ∧ response = id_response (py_str (VObjectId (next_oid store))).
Proof.
  intros Hc Hrun.
  destruct (serve_cases r w)
    as [[ -> | [ -> | -> ]]|[(errors & _ & Ha & _)|[(c' & _ & Ha & _)|(c' & Ha & _ & Hserve)]]];
    try discriminate Hc; try congruence.
  assert (c' = c) as -> by congruence. rewrite Hserve in *.
  destruct (run_create_cases c w) as [[e He]|(store & Hdb & Hup & He)];
    rewrite He in *; [discriminate Hrun|].
  injection Hrun as <-.
  eexists store, _. split; [exact Hdb|]. split; [exact Hup|].
  split; [reflexivity|]. split; [apply documents_of_insert|].
  split; [|split; reflexivity].
  intros other Hne. by apply documents_of_insert_ne.
Qed.

Lemma serve_keeps_fresh_ids (r : request) (w : World) :
  fresh_ids w → fresh_ids (serve r w).2.
Proof.
  intros Hfresh.
  destruct (only_store_change r w) as [Hsame|(c & store & _ & Hdb & Hw')].
  - unfold fresh_ids in *. by rewrite Hsame.
  - unfold fresh_ids in *. rewrite Hw'. rewrite Hdb in Hfresh. cbn [collections next_oid].
    intros collection docs d Hdocs Hd o Ho.
    destruct (decide (created_in c = collection)) as [<-|Hne].
    + rewrite lookup_insert_eq in Hdocs. injection Hdocs as <-.
      apply elem_of_app in Hd as [Hd|Hd].
      * unfold documents_of in Hd.
        destruct (collections store !! created_in c) as [old|] eqn:Hold;
          [|by apply elem_of_nil in Hd].
        specialize (Hfresh _ _ _ Hold Hd o Ho). lia.
      * apply list_elem_of_singleton in Hd as ->.
        rewrite lookup_insert_eq in Ho. injection Ho as <-. lia.
    + rewrite lookup_insert_ne in Hdocs by exact Hne.
      specialize (Hfresh _ _ _ Hdocs Hd o Ho). lia.
Qed.

(** X8: identifiers are not reused.  If the identifier of every stored
    document is below the next identifier of the store, this is still so
    after any sequence of requests; so the identifier that the next create
    request gives to its document is held by no stored document. *)
Theorem identifiers_stay_fresh (rs : list request) (w : World) :
  fresh_ids w →
  fresh_ids (after rs w)
  ∧ ∀ store collection docs d,
      db (after rs w) = Some store →
      collections store !! collection = Some docs → d ∈ docs →
      d !! "_id" ≠ Some (VObjectId (next_oid store)).
Proof.
  intros Hfresh.
  assert (Hafter : fresh_ids (after rs w)).
  { revert w Hfresh. induction rs as [|r rs IH]; intros w Hfresh; [exact Hfresh|].
    cbn [after fold_left]. apply IH. by apply serve_keeps_fresh_ids. }
  split; [exact Hafter|].
  intros store collection docs d Hdb Hdocs Hd Hid.
  unfold fresh_ids in Hafter. rewrite Hdb in Hafter.
  specialize (Hafter _ _ _ Hdocs Hd _ Hid). lia.
Qed.

(** ** The filters of [list_products], together *)

Lemma list_products_query_category (q category brand : option string)
    (min_price max_price : option float) (c : string) :
  truthy category = Some c →
  list_products_query q category brand min_price max_price !! "category" = Some (Equals c).
Proof.
  intros Hc. unfold list_products_query. rewrite Hc.
  destruct (truthy q), (truthy brand); destruct (range_nonempty _);
    repeat (rewrite lookup_insert_ne by discriminate); apply lookup_insert_eq.
Qed.

Lemma list_products_query_brand (q category brand : option string)
    (min_price max_price : option float) (b : string) :
  truthy brand = Some b →
  list_products_query q category brand min_price max_price !! "brand" = Some (Equals b).
Proof.
  intros Hb. unfold list_products_query. rewrite Hb.
  destruct (truthy q), (truthy category); destruct (range_nonempty _);
    repeat (rewrite lookup_insert_ne by discriminate); apply lookup_insert_eq.
Qed.

Lemma Equals_holds (p : option value → bool) (s : string) (fv : option value) :
  condition_pred (Equals s) = Some p → p fv = true → fv = Some (VStr s).
Proof.
  cbn [condition_pred]. intros [= <-] Hp.
  destruct fv as [[]|]; try discriminate Hp.
  by apply String.eqb_eq in Hp as ->.
Qed.

Lemma Range_holds (p : option value → bool) (ops : range_ops) (fv : option value) :
  range_nonempty ops = true →
  condition_pred (Range ops) = Some p → p fv = true →
  ∃ f, fv = Some (VFloat f) ∧ in_range ops f = true.
Proof.
  cbn [condition_pred]. intros -> [= <-] Hp.
  destruct fv as [[]|]; try discriminate Hp. eauto.
Qed.

(** X9: the filters of [list_products] hold together on every document
    behind a returned item: a non-empty [category] and a non-empty [brand]
    are matched exactly, and each price bound that is supplied holds, also
    when the other one is absent. *)
Theorem list_products_filters_hold_together (q category brand : option string)
    (min_price max_price : option float) (limit : Z) (w w' : World) (r : document) :
  list_products q category brand min_price max_price limit w = (Returns r, w') →
  ∃ docs, r = items_response docs
    ∧ ∀ d, d ∈ docs →
        (∀ c, truthy category = Some c → d !! "category" = Some (VStr c))
        ∧ (∀ b, truthy brand = Some b → d !! "brand" = Some (VStr b))
        ∧ (∀ lo, min_price = Some lo →
             ∃ p, d !! "price" = Some (VFloat p) ∧ (lo <=? p)%float = true)
        ∧ (∀ hi, max_price = Some hi →
             ∃ p, d !! "price" = Some (VFloat p) ∧ (p <=? hi)%float = true).
Proof.
  intros Hrun.
  apply list_products_Returns_inv in Hrun as (docs & -> & Hget).
  exists docs. split; [reflexivity|]. intros d Hd.
  apply get_documents_Returns_inv in Hget as (store & P & _ & _ & HP & ->).
  apply elem_of_take_filter in Hd as [_ HPd].
  assert (Hprice : range_nonempty (RangeOps min_price max_price) = true →
                   ∃ f, d !! "price" = Some (VFloat f)
                        ∧ in_range (RangeOps min_price max_price) f = true).
  { intros Hne.
    pose proof (list_products_query_price q category brand min_price max_price) as Hq.
    rewrite Hne in Hq.
    destruct (query_pred_lookup _ P "price" _ d HP Hq HPd) as (p & Hp & Hpd).
    by eapply Range_holds. }
  split; [|split; [|split]].
  - intros c Hc.
    destruct (query_pred_lookup _ P "category" _ d HP
                (list_products_query_category q category brand min_price max_price c Hc)
                HPd) as (p & Hp & Hpd).
    by eapply Equals_holds.
  - intros b Hb.
    destruct (query_pred_lookup _ P "brand" _ d HP
                (list_products_query_brand q category brand min_price max_price b Hb)
                HPd) as (p & Hp & Hpd).
    by eapply Equals_holds.
  - intros lo ->. destruct Hprice as (f & Hf & Hin); [by destruct max_price|].
    exists f. split; [exact Hf|].
    unfold in_range in Hin. cbn [op_gte] in Hin. by apply andb_true_iff in Hin as [? _].
  - intros hi ->. destruct Hprice as (f & Hf & Hin); [by destruct min_price|].
    exists f. split; [exact Hf|].
    unfold in_range in Hin. cbn [op_lte] in Hin. by apply andb_true_iff in Hin as [_ ?].
Qed.

(** ** Orders by customer *)

(** X10: [GET /api/orders] without [user_email] is answered with a validation
    error and the world is left as it was; with [user_email], every document
    behind a returned item is an order of the [order] collection with exactly
    that [user_email]. *)
Theorem list_orders_user_email :
  (∀ (limit : option Z) (w : World),
      GET_orders None limit w
      = (Raises (RequestValidationError [ErrorDetails [Key "query"; Key "user_email"] missing VNone]),
         w))
  ∧ (∀ (user_email : string) (limit : option Z) (w w' : World) (r : document),
      GET_orders (Some user_email) limit w = (Returns r, w') →
      ∃ store docs,
        db w = Some store ∧ r = items_response docs
        ∧ ∀ d, d ∈ docs →
            d ∈ documents_of store "order"
            ∧ d !! "user_email" = Some (VStr user_email)
            ∧ normalize_id d !! "user_email" = Some (VStr user_email)).
Proof.
  split; [reflexivity|].
  intros user_email limit w w' r Hrun.
  change (list_orders user_email (default 50%Z limit) w = (Returns r, w')) in Hrun.
  unfold list_orders in Hrun.
  apply listing_Returns_inv in Hrun as (docs & -> & Hget).
  apply get_documents_Returns_inv in Hget as (store & P & Hdb & _ & HP & ->).
  eexists store, _. split; [exact Hdb|]. split; [reflexivity|].
  intros d [Hd HPd]%elem_of_take_filter. split; [exact Hd|].
  destruct (query_pred_lookup _ P "user_email" (Equals user_email) d HP
              (lookup_singleton_eq _ _) HPd) as (p & Hp & Hpd).
  clear HP.
  rewrite normalize_id_lookup_other by discriminate.
  split; by eapply Equals_holds.
Qed.

(** ** A pattern that the store rejects *)

Lemma conj_pred_None (l : list (string * condition)) (k : string) (c : condition) :
  (k, c) ∈ l → condition_pred c = None → conj_pred l = None.
Proof.
  induction l as [|[k' c'] l IH]; intros Hin Hc.
  - by apply elem_of_nil in Hin.
  - cbn [conj_pred]. apply elem_of_cons in Hin as [[= <- <-]|Hin].
    + by rewrite Hc.
    + rewrite (IH Hin Hc). by destruct (condition_pred c').
Qed.

(** X11: [q] goes to the store as it is.  When the store's engine rejects it
    as a pattern, [list_products] does not return: the store's error is not
    caught, the response is a 500, and the store is as before. *)
Theorem list_products_rejected_pattern (q : string) (category brand : option string)
    (min_price max_price : option float) (limit : Z) (w : World) (store : Database) :
  q ≠ "" → regex_compile q "i" = None → db w = Some store → outage store = None →
  ∃ w',
    list_products (Some q) category brand min_price max_price limit w
    = (Raises (Other StoreOperationError), w')
    ∧ status_of
        (list_products (Some q) category brand min_price max_price limit w).1 = 500%Z
    ∧ db w' = db w.
Proof.
  intros Hq Hre Hdb Hup.
  assert (Hpred : query_pred (list_products_query (Some q) category brand min_price max_price)
                  = None).
  { unfold query_pred. apply (conj_pred_None _ "title" (Regex q "i")).
    - apply elem_of_map_to_list. by apply list_products_query_title.
    - cbn [condition_pred]. by rewrite Hre. }
  assert (Hrun : list_products (Some q) category brand min_price max_price limit w
                 = (Raises (Other StoreOperationError),
                    logged (CallGetDocuments "product"
                              (list_products_query (Some q) category brand min_price max_price)
                              limit) w)).
  { unfold list_products. rewrite bind_run, get_db_run, Hdb, bind_run.
    unfold get_documents. rewrite bind_run. cbn [log]. rewrite bind_run, get_db_run.
    cbn [logged db]. by rewrite Hdb, Hup, Hpred. }
  rewrite Hrun. eauto.
Qed.

(** ** What validation guarantees *)

Lemma at_loc_Valid_inv {A} (i : loc_item) (r : validated A) (a : A) :
  at_loc i r = Valid a → r = Valid a.
Proof. destruct r; [done|discriminate]. Qed.

Lemma required_Valid_inv {A} (name : string) (f : value → validated A) (data : document)
    (a : A) :
  required name f data = Valid a → ∃ v, data !! name = Some v ∧ f v = Valid a.
Proof.
  unfold required. destruct (data !! name) as [v|]; [|discriminate].
  intros Hv%at_loc_Valid_inv. eauto.
Qed.

Lemma with_default_Valid_inv {A} (name : string) (d : A) (f : value → validated A)
    (data : document) (a : A) :
  with_default name d f data = Valid a →
  (data !! name = None ∧ a = d) ∨ ∃ v, data !! name = Some v ∧ f v = Valid a.
Proof.
  unfold with_default. destruct (data !! name) as [v|].
  - intros Hv%at_loc_Valid_inv. eauto.
  - intros [= <-]. auto.
Qed.

Lemma required_lookup {A} (name : string) (f : value → validated A) (data : document)
    (v : value) :
  data !! name = Some v → required name f data = at_loc (Key name) (f v).
Proof. intros Hv. unfold required. by rewrite Hv. Qed.

Lemma with_default_lookup {A} (name : string) (d : A) (f : value → validated A)
    (data : document) (v : value) :
  data !! name = Some v → with_default name d f data = at_loc (Key name) (f v).
Proof. intros Hv. unfold with_default. by rewrite Hv. Qed.

Lemma validate_float_Valid_inv (bound : float) (v : value) (f : float) :
  validate_float (Some bound) v = Valid f → ge_float bound f = true.
Proof.
  unfold validate_float. destruct (as_float v) as [f'|]; [|discriminate].
  destruct (ge_float bound f') eqn:Hge; [|discriminate]. by intros [= <-].
Qed.

Lemma validate_int_Valid_inv (bound : Z) (v : value) (z : Z) :
  validate_int (Some bound) v = Valid z → ge_int bound z = true.
Proof.
  unfold validate_int. destruct (as_int v) as [z'|]; [|discriminate].
  destruct (ge_int bound z') eqn:Hge; [|discriminate]. by intros [= <-].
Qed.

Lemma required_float_Valid_inv (name : string) (bound : float) (data : document)
    (f : float) :
  required name (validate_float (Some bound)) data = Valid f → ge_float bound f = true.
Proof. intros (v & _ & Hv)%required_Valid_inv. by eapply validate_float_Valid_inv. Qed.

Lemma validate_OrderItem_Valid_inv (data : document) (i : OrderItem.t) :
  validate_OrderItem data = Valid i → item_ok i.
Proof.
  unfold validate_OrderItem. intros Hi.
  apply ap_Valid_inv in Hi as (g4 & quantity & Hi & Hquantity & ->).
  apply ap_Valid_inv in Hi as (g3 & price & Hi & Hprice & ->).
  apply ap_Valid_inv in Hi as (g2 & title & Hi & _ & ->).
  apply ap_Valid_inv in Hi as (g1 & product_id & Hi & _ & ->).
  injection Hi as <-. split; cbn.
  - by eapply required_float_Valid_inv.
  - apply required_Valid_inv in Hquantity as (v & _ & Hv).
    by eapply validate_int_Valid_inv.
Qed.

Lemma validate_elements_Valid_inv {A} (f : value → validated A) (P : A → Prop)
    (n : nat) (l : list value) (items : list A) :
  (∀ v a, f v = Valid a → P a) →
  validate_elements f n l = Valid items → Forall P items.
Proof.
  intros Hf. revert n items. induction l as [|v l IH]; intros n items; cbn [validate_elements].
  - intros [= <-]. constructor.
  - intros Hl.
    apply ap_Valid_inv in Hl as (g & rest & Hl & Hrest & ->).
    apply ap_Valid_inv in Hl as (g' & a & Hl & Ha & ->).
    injection Hl as <-. constructor; [|by eapply IH].
    apply at_loc_Valid_inv in Ha. by eapply Hf.
Qed.

Lemma body_param_Valid_inv {A} (validate : document → validated A) (body : value) (a : A) :
  body_param validate body = Valid a → ∃ data, body = VDict data ∧ validate data = Valid a.
Proof.
  unfold body_param. intros Hb%at_loc_Valid_inv.
  destruct body; try discriminate Hb. eauto.
Qed.

(** A request body that is accepted gives a record within the bounds of its
    schema. *)
Lemma accepted_within_bounds (r : request) (c : create_call) :
  accepted r = Some c → valid_record c.
Proof.
  destruct r as [| |q category brand min_price max_price limit|body|limit|body
                |user_email limit|body|user_email limit|body|];
    cbn [accepted]; try discriminate.
  - destruct (body_param validate_AddProductRequest body) as [product|] eqn:Hb;
      [|discriminate].
    intros [= <-]. cbn [valid_record].
    apply body_param_Valid_inv in Hb as (data & _ & Hp).
    unfold validate_AddProductRequest, validate_Product in Hp.
    apply ap_Valid_inv in Hp as (g7 & in_stock & Hp & _ & ->).
    apply ap_Valid_inv in Hp as (g6 & image & Hp & _ & ->).
    apply ap_Valid_inv in Hp as (g5 & brand & Hp & _ & ->).
    apply ap_Valid_inv in Hp as (g4 & category & Hp & _ & ->).
    apply ap_Valid_inv in Hp as (g3 & price & Hp & Hprice & ->).
    apply ap_Valid_inv in Hp as (g2 & description & Hp & _ & ->).
    apply ap_Valid_inv in Hp as (g1 & title & Hp & _ & ->).
    injection Hp as <-. cbn. by eapply required_float_Valid_inv.
  - destruct (body_param validate_Category body); [|discriminate].
    by intros [= <-].
  - destruct (body_param validate_Wishlist body); [|discriminate].
    by intros [= <-].
  - destruct (body_param validate_Order body) as [order|] eqn:Hb; [|discriminate].
    intros [= <-]. cbn [valid_record].
    apply body_param_Valid_inv in Hb as (data & _ & Ho).
    unfold validate_Order in Ho.
    apply ap_Valid_inv in Ho as (g6 & total & Ho & Htotal & ->).
    apply ap_Valid_inv in Ho as (g5 & items & Ho & Hitems & ->).
    apply ap_Valid_inv in Ho as (g4 & status & Ho & _ & ->).
    apply ap_Valid_inv in Ho as (g3 & pm & Ho & _ & ->).
    apply ap_Valid_inv in Ho as (g2 & addr & Ho & _ & ->).
    apply ap_Valid_inv in Ho as (g1 & email & Ho & _ & ->).
    injection Ho as <-. cbn. split; [by eapply required_float_Valid_inv|].
    apply required_Valid_inv in Hitems as (v & _ & Hv).
    unfold validate_list in Hv. destruct v; try discriminate Hv.
    eapply validate_elements_Valid_inv; [|exact Hv].
    intros v a Ha. unfold validate_model in Ha. destruct v; try discriminate Ha.
    by eapply validate_OrderItem_Valid_inv.
Qed.

Lemma serve_keeps_conforming (r : request) (w : World) :
  conforming w → conforming (serve r w).2.
Proof.
  intros Hconf.
  destruct (only_store_change r w) as [Hsame|(c & store & Hc & Hdb & Hw')].
  - unfold conforming in *. by rewrite Hsame.
  - unfold conforming in *. rewrite Hw'. rewrite Hdb in Hconf. cbn [collections].
    intros collection docs d Hdocs Hd.
    destruct (decide (created_in c = collection)) as [<-|Hne].
    + rewrite lookup_insert_eq in Hdocs. injection Hdocs as <-.
      apply elem_of_app in Hd as [Hd|Hd].
      * unfold documents_of in Hd.
        destruct (collections store !! created_in c) as [old|] eqn:Hold;
          [|by apply elem_of_nil in Hd].
        by eapply Hconf.
      * apply list_elem_of_singleton in Hd as ->.
        exists c, (next_oid store). split; [reflexivity|].
        split; [by eapply accepted_within_bounds|reflexivity].
    + rewrite lookup_insert_ne in Hdocs by exact Hne. by eapply Hconf.
Qed.

(** X12: the store keeps to the schemas.  A request body that is accepted
    gives a record within the bounds of its schema: a product has a price of
    at least 0; an order has a total of at least 0 and each of its items a
    price of at least 0 and a quantity of at least 1.  And if every stored
    document is the dump of such a record of the schema of its collection,
    this is still so after any sequence of requests. *)
Theorem requests_keep_store_conforming (rs : list request) (w : World) :
  conforming w →
  conforming (after rs w) ∧ ∀ r c, accepted r = Some c → valid_record c.
Proof.
  intros Hconf. split; [|apply accepted_within_bounds].
  revert w Hconf. induction rs as [|r rs IH]; intros w Hconf; [exact Hconf|].
  cbn [after fold_left]. apply IH. by apply serve_keeps_conforming.
Qed.

(** ** Dumping and validating again *)

Lemma validate_OrderItem_model_dump (i : OrderItem.t) :
  item_ok i → validate_OrderItem (model_dump i) = Valid i.
Proof.
  destruct i as [product_id title price quantity]. intros [Hprice Hquantity].
  cbn [OrderItem.price OrderItem.quantity] in Hprice, Hquantity. unfold validate_OrderItem.
  rewrite (required_lookup "product_id" _ _ (VStr product_id)) by reflexivity.
  rewrite (required_lookup "title" _ _ (VStr title)) by reflexivity.
  rewrite (required_lookup "price" _ _ (VFloat price)) by reflexivity.
  rewrite (required_lookup "quantity" _ _ (VInt quantity)) by reflexivity.
  unfold validate_float, validate_int. cbn [as_float as_int]. by rewrite Hprice, Hquantity.
Qed.

Lemma validate_elements_model_dump (items : list OrderItem.t) (n : nat) :
  Forall item_ok items →
  validate_elements (validate_model validate_OrderItem) n
    ((λ i, VDict (model_dump i)) <$> items)
  = Valid items.
Proof.
  intros Hitems. revert n. induction Hitems as [|i items Hi _ IH]; intros n; [reflexivity|].
  cbn [fmap list_fmap validate_elements validate_model].
  by rewrite (validate_OrderItem_model_dump i Hi), IH.
Qed.

(** X13: what is dumped validates back to itself.  The dump of a category or
    of a wishlist entry validates to the same record; so does the dump of a
    product whose price is at least 0, and the dump of an order whose total
    is at least 0 and whose items are within their bounds. *)
Theorem validate_model_dump :
  (∀ c : Category.t, validate_Category (model_dump c) = Valid c)
  ∧ (∀ x : Wishlist.t, validate_Wishlist (model_dump x) = Valid x)
  ∧ (∀ p : Product.t,
       ge_float 0 (Product.price p) = true → validate_Product (model_dump p) = Valid p)
  ∧ (∀ o : Order.t,
       ge_float 0 (Order.total o) = true → Forall item_ok (Order.items o) →
       validate_Order (model_dump o) = Valid o).
Proof.
  split; [|split; [|split]].
  - intros [name slug]. unfold validate_Category.
    rewrite (required_lookup "name" _ _ (VStr name)) by reflexivity.
    by rewrite (required_lookup "slug" _ _ (VStr slug)) by reflexivity.
  - intros [user_email product_id]. unfold validate_Wishlist.
    rewrite (required_lookup "user_email" _ _ (VStr user_email)) by reflexivity.
    by rewrite (required_lookup "product_id" _ _ (VStr product_id)) by reflexivity.
  - intros [title description price category brand image in_stock] Hprice.
    cbn [Product.price] in Hprice. unfold validate_Product.
    rewrite (required_lookup "title" _ _ (VStr title)) by reflexivity.
    rewrite (with_default_lookup "description" _ _ _ (dump_optional_str description))
      by reflexivity.
    rewrite (required_lookup "price" _ _ (VFloat price)) by reflexivity.
    rewrite (required_lookup "category" _ _ (VStr category)) by reflexivity.
    rewrite (with_default_lookup "brand" _ _ _ (dump_optional_str brand)) by reflexivity.
    rewrite (with_default_lookup "image" _ _ _ (dump_optional_str image)) by reflexivity.
    rewrite (with_default_lookup "in_stock" _ _ _ (VBool in_stock)) by reflexivity.
    unfold validate_float. cbn [as_float]. rewrite Hprice.
    by destruct description, brand, image.
  - intros [user_email shipping_address payment_method status items total] Htotal Hitems.
    cbn [Order.total Order.items] in Htotal, Hitems. unfold validate_Order.
    rewrite (required_lookup "user_email" _ _ (VStr user_email)) by reflexivity.
    rewrite (required_lookup "shipping_address" _ _ (VStr shipping_address)) by reflexivity.
    rewrite (required_lookup "payment_method" _ _ (VStr payment_method)) by reflexivity.
    rewrite (with_default_lookup "status" _ _ _ (VStr status)) by reflexivity.
    rewrite (required_lookup "items" _ _
               (VList ((λ i, VDict (model_dump i)) <$> items))) by reflexivity.
    rewrite (required_lookup "total" _ _ (VFloat total)) by reflexivity.
    unfold validate_float, validate_list. cbn [as_float].
    by rewrite Htotal, (validate_elements_model_dump items 0 Hitems).
Qed.

(** ** Defaults and unknown keys *)

(** X14: the defaults of the schemas.  In an accepted product an absent
    [in_stock] is [True] and an absent [description], [brand] or [image] is
    [None]; in an accepted order an absent [status] is ["pending"], and a
    [status] that is given is kept. *)
Theorem schema_defaults :
  (∀ data p, validate_Product data = Valid p →
     (data !! "in_stock" = None → Product.in_stock p = true)
     ∧ (data !! "description" = None → Product.description p = None)
     ∧ (data !! "brand" = None → Product.brand p = None)
     ∧ (data !! "image" = None → Product.image p = None))
  ∧ (∀ data o, validate_Order data = Valid o →
       (data !! "status" = None → Order.status o = "pending")
       ∧ (∀ s, data !! "status" = Some (VStr s) → Order.status o = s)).
Proof.
  split.
  - intros data p Hp. unfold validate_Product in Hp.
    apply ap_Valid_inv in Hp as (g7 & in_stock & Hp & Hin_stock & ->).
    apply ap_Valid_inv in Hp as (g6 & image & Hp & Himage & ->).
    apply ap_Valid_inv in Hp as (g5 & brand & Hp & Hbrand & ->).
    apply ap_Valid_inv in Hp as (g4 & category & Hp & _ & ->).
    apply ap_Valid_inv in Hp as (g3 & price & Hp & _ & ->).
    apply ap_Valid_inv in Hp as (g2 & description & Hp & Hdescription & ->).
    apply ap_Valid_inv in Hp as (g1 & title & Hp & _ & ->).
    injection Hp as <-. cbn. unfold with_default in *.
    repeat split; intros Hnone.
    + rewrite Hnone in Hin_stock. by injection Hin_stock.
    + rewrite Hnone in Hdescription. by injection Hdescription.
    + rewrite Hnone in Hbrand. by injection Hbrand.
    + rewrite Hnone in Himage. by injection Himage.
  - intros data o Ho. unfold validate_Order in Ho.
    apply ap_Valid_inv in Ho as (g6 & total & Ho & _ & ->).
    apply ap_Valid_inv in Ho as (g5 & items & Ho & _ & ->).
    apply ap_Valid_inv in Ho as (g4 & status & Ho & Hstatus & ->).
    apply ap_Valid_inv in Ho as (g3 & pm & Ho & _ & ->).
    apply ap_Valid_inv in Ho as (g2 & addr & Ho & _ & ->).
    apply ap_Valid_inv in Ho as (g1 & email & Ho & _ & ->).
    injection Ho as <-. cbn. unfold with_default in Hstatus. split.
    + intros Hnone. rewrite Hnone in Hstatus. by injection Hstatus.
    + intros s Hs. rewrite Hs in Hstatus. by injection Hstatus.
Qed.

Ltac distinct_from_fields H :=
  repeat (apply not_elem_of_cons in H as [? H]).

Lemma same_verdict_refl {A} (r : validated A) : same_verdict r r.
Proof. by destruct r. Qed.

Lemma same_verdict_ap {A B} (f f' : validated (A → B)) (x x' : validated A) :
  same_verdict f f' → same_verdict x x' → same_verdict (f <*> x) (f' <*> x').
Proof.
  destruct f, f', x, x'; cbn; try done; try congruence.
  intros Hf Hx. unfold kinds in *. by rewrite !fmap_app, Hf, Hx.
Qed.

Lemma same_verdict_at_loc {A} (i : loc_item) (r r' : validated A) :
  same_verdict r r' → same_verdict (at_loc i r) (at_loc i r').
Proof.
  destruct r as [a|es], r' as [a'|es']; cbn; try done.
  unfold kinds. intros Hk. change (map ?f ?l) with (f <$> l).
  rewrite <- !list_fmap_compose.
  change (((λ e, (loc e, type e)) ∘ _) <$> es)
    with ((λ e : error_details, (i :: loc e, type e)) <$> es).
  change (((λ e, (loc e, type e)) ∘ _) <$> es')
    with ((λ e : error_details, (i :: loc e, type e)) <$> es').
  revert es' Hk. induction es as [|e es IH]; intros [|e' es']; cbn; try done.
  intros [= Hl Ht Hk]. by rewrite Hl, Ht, (IH es' Hk).
Qed.

(** A field validates in the same way beside another key; when it is
    missing, the error quotes the other key as part of its input. *)
Lemma same_verdict_required {A} (k name : string) (v : value) (f : value → validated A)
    (data : document) :
  k ≠ name → same_verdict (required name f (<[k := v]> data)) (required name f data).
Proof.
  intros Hne. unfold required. rewrite lookup_insert_ne by done.
  destruct (data !! name); [apply same_verdict_refl|reflexivity].
Qed.

Lemma same_verdict_Valid {A} (r r' : validated A) (a : A) :
  same_verdict r' r → r = Valid a → r' = Valid a.
Proof. destruct r', r; cbn; try done. by intros -> [= ->]. Qed.

Lemma same_verdict_Invalid {A} (r r' : validated A) (errors : list error_details) :
  same_verdict r' r → r = Invalid errors →
  ∃ errors', r' = Invalid errors' ∧ kinds errors' = kinds errors.
Proof. destruct r', r; cbn; try done. intros Hk [= ->]. eauto. Qed.

(** Routes that validate their bodies alike leave the same world behind, and
    answer alike when the body validates. *)
Lemma run_validated_same_verdict {A} (handler : A → M document) (r r' : validated A)
    (w : World) :
  same_verdict r' r →
  (run_validated (Valid handler <*> r') w).2 = (run_validated (Valid handler <*> r) w).2
  ∧ ∀ a, r = Valid a →
      run_validated (Valid handler <*> r') w = run_validated (Valid handler <*> r) w.
Proof.
  intros Hsame. destruct r as [a|errors] eqn:Hr.
  - rewrite (same_verdict_Valid _ r' a Hsame eq_refl). auto.
  - destruct (same_verdict_Invalid _ r' errors Hsame eq_refl) as (errors' & -> & _).
    split; [reflexivity|discriminate].
Qed.

Ltac same_fields :=
  repeat first
    [ apply same_verdict_ap
    | apply same_verdict_required; assumption
    | rewrite with_default_insert_ne by assumption
    | apply same_verdict_refl ].

(** X15: a key of a request body that is not a field of the schema is not
    validated and not stored.  With or without it the body validates to the
    same record or fails at the same places for the same reasons; the world
    after the request is the same; and a body that validates is answered the
    same.  In particular a body cannot choose the identifier of its
    document. *)
Theorem unknown_keys_are_ignored (k : string) (v : value) (data : document) :
  (k ∉ Product_fields →
     same_verdict (validate_Product (<[k := v]> data)) (validate_Product data)
     ∧ ∀ w, (POST_products (VDict (<[k := v]> data)) w).2 = (POST_products (VDict data) w).2
            ∧ ∀ p, validate_Product data = Valid p →
                POST_products (VDict (<[k := v]> data)) w = POST_products (VDict data) w)
  ∧ (k ∉ Category_fields →
     same_verdict (validate_Category (<[k := v]> data)) (validate_Category data)
     ∧ ∀ w, (POST_categories (VDict (<[k := v]> data)) w).2
            = (POST_categories (VDict data) w).2
            ∧ ∀ c, validate_Category data = Valid c →
                POST_categories (VDict (<[k := v]> data)) w = POST_categories (VDict data) w)
  ∧ (k ∉ Wishlist_fields →
     same_verdict (validate_Wishlist (<[k := v]> data)) (validate_Wishlist data)
     ∧ ∀ w, (POST_wishlist (VDict (<[k := v]> data)) w).2 = (POST_wishlist (VDict data) w).2
            ∧ ∀ x, validate_Wishlist data = Valid x →
                POST_wishlist (VDict (<[k := v]> data)) w = POST_wishlist (VDict data) w)
  ∧ (k ∉ Order_fields →
     same_verdict (validate_Order (<[k := v]> data)) (validate_Order data)
     ∧ ∀ w, (POST_orders (VDict (<[k := v]> data)) w).2 = (POST_orders (VDict data) w).2
            ∧ ∀ o, validate_Order data = Valid o →
                POST_orders (VDict (<[k := v]> data)) w = POST_orders (VDict data) w).
Proof.
  assert (Hroute : ∀ A (validate : document → validated A) (handler : A → M document),
            same_verdict (validate (<[k := v]> data)) (validate data) →
            ∀ w, (run_validated (Valid handler
                                   <*> body_param validate (VDict (<[k := v]> data))) w).2
                 = (run_validated (Valid handler <*> body_param validate (VDict data)) w).2
                 ∧ ∀ a, validate data = Valid a →
                     run_validated (Valid handler
                                      <*> body_param validate (VDict (<[k := v]> data))) w
                     = run_validated (Valid handler <*> body_param validate (VDict data)) w).
  { intros A validate handler Hsame w.
    destruct (run_validated_same_verdict handler
                (body_param validate (VDict data))
                (body_param validate (VDict (<[k := v]> data))) w) as [Hw Hrun].
    { by apply same_verdict_at_loc. }
    split; [exact Hw|]. intros a Ha. apply (Hrun a).
    unfold body_param, validate_model. by rewrite Ha. }
  split; [|split; [|split]]; intros Hk; distinct_from_fields Hk.
  - assert (Hsame : same_verdict (validate_Product (<[k := v]> data))
                      (validate_Product data)).
    { unfold validate_Product. same_fields. }
    split; [exact Hsame|]. by apply Hroute.
  - assert (Hsame : same_verdict (validate_Category (<[k := v]> data))
                      (validate_Category data)).
    { unfold validate_Category. same_fields. }
    split; [exact Hsame|]. by apply Hroute.
  - assert (Hsame : same_verdict (validate_Wishlist (<[k := v]> data))
                      (validate_Wishlist data)).
    { unfold validate_Wishlist. same_fields. }
    split; [exact Hsame|]. by apply Hroute.
  - assert (Hsame : same_verdict (validate_Order (<[k := v]> data))
                      (validate_Order data)).
    { unfold validate_Order. same_fields. }
    split; [exact Hsame|]. by apply Hroute.
Qed.

(** ** The listing of a route *)

Lemma run_list_Returns_length (c : list_call) (w w' : World) (r : document) :
  run_list c w = (Returns r, w') →
  ∃ docs, r = items_response docs ∧ (List.length docs ≤ Z.to_nat (limit_of c))%nat.
Proof.
  intros Hrun.
  assert (Hget : ∃ docs collection filter_dict,
            r = items_response docs
            ∧ get_documents collection filter_dict (limit_of c) w = (Returns docs, w')).
  { destruct c as [q category brand min_price max_price limit|limit|user_email limit
                  |user_email limit]; cbn [run_list limit_of] in *.
    - apply list_products_Returns_inv in Hrun as (docs & -> & Hget). eauto.
    - apply listing_Returns_inv in Hrun as (docs & -> & Hget). eauto.
    - apply listing_Returns_inv in Hrun as (docs & -> & Hget). eauto.
    - apply listing_Returns_inv in Hrun as (docs & -> & Hget). eauto. }
  destruct Hget as (docs & collection & filter_dict & -> & Hget).
  apply get_documents_Returns_inv in Hget as (store & p & _ & _ & _ & ->).
  eexists. split; [reflexivity|]. rewrite length_take. lia.
Qed.

(** X16: the default limits.  A list request without a [limit] parameter is
    answered with at most 50 products, 100 categories, 100 wishlist entries
    or 50 orders; with a [limit], with at most that many items. *)
Theorem default_limits (r : request) (w : World) (response : document) :
  (serve r w).1 = Returns response →
  ∀ c, listing r = Some c →
    (∃ docs, response = items_response docs
             ∧ (List.length docs ≤ Z.to_nat (limit_of c))%nat)
    ∧ limit_of c
      = match r with
        | ReqGetProducts _ _ _ _ _ limit | ReqGetOrders _ limit => default 50%Z limit
        | ReqGetCategories limit | ReqGetWishlist _ limit => default 100%Z limit
        | _ => limit_of c
        end.
Proof.
  intros Hrun c Hc. split.
  - destruct (serve_cases r w)
      as [[ -> | [ -> | -> ]]|[(errors & _ & _ & Hl)|[(c' & Hl & _ & Hs)|(c' & _ & Hl & _)]]];
      try discriminate Hc; try congruence.
    assert (c' = c) as -> by congruence. rewrite Hs in Hrun.
    destruct (run_list c w) as [o w'] eqn:Hlist. cbn [fst] in Hrun. subst o.
    by eapply run_list_Returns_length.
  - destruct r as [| |q category brand min_price max_price limit|body|limit|body
                  |[user_email|] limit|body|[user_email|] limit|body|];
      cbn [listing] in Hc; try discriminate Hc; by injection Hc as <-.
Qed.

(** ** The conversion of the identifier *)

(** X17: converting a document twice is converting it once, so a dict that is
    met twice in the loop is not harmed; a document without [_id] is left as
    it is; and a document with [_id] comes out with the same keys, [id] in
    the place of [_id]. *)
Theorem normalize_id_once (d : document) :
  normalize_id (normalize_id d) = normalize_id d
  ∧ (d !! "_id" = None → normalize_id d = d)
  ∧ (is_Some (d !! "_id") → dom (normalize_id d) = {["id"]} ∪ (dom d ∖ {["_id"]})).
Proof.
  assert (Hnone : ∀ d' : document, d' !! "_id" = None → normalize_id d' = d').
  { intros d' Hd'. unfold normalize_id. by rewrite Hd'. }
  split; [|split; [apply Hnone|]].
  - destruct (d !! "_id") as [oid|] eqn:Hid.
    + apply Hnone. unfold normalize_id. rewrite Hid.
      rewrite lookup_insert_ne by discriminate. apply lookup_delete_eq.
    + by rewrite !(Hnone d Hid).
  - intros [oid Hid]. unfold normalize_id. rewrite Hid.
    by rewrite dom_insert_L, dom_delete_L.
Qed.

(** ** Creating twice *)

(** X18: nothing is checked for uniqueness.  With the store available,
    creating the same record twice returns both times; the collection gains
    two documents that hold the same record under two different
    identifiers; and the two responses differ, provided [str] tells the two
    identifiers apart, as the hexadecimal form of a store identifier does. *)
Theorem create_twice_stores_two (c : create_call) (w : World) (store : Database) :
  db w = Some store → outage store = None →
  py_str (VObjectId (next_oid store)) ≠ py_str (VObjectId (N.succ (next_oid store))) →
  ∃ w1 w2 store2,
    run_create c w = (Returns (id_response (py_str (VObjectId (next_oid store)))), w1)
    ∧ run_create c w1
      = (Returns (id_response (py_str (VObjectId (N.succ (next_oid store))))), w2)
    ∧ id_response (py_str (VObjectId (next_oid store)))
      ≠ id_response (py_str (VObjectId (N.succ (next_oid store))))
    ∧ db w2 = Some store2
    ∧ documents_of store2 (created_in c)
      = (documents_of store (created_in c)
         ++ [<["_id" := VObjectId (next_oid store)]> (dumped c);
             <["_id" := VObjectId (N.succ (next_oid store))]> (dumped c)])%list
    ∧ VObjectId (next_oid store) ≠ VObjectId (N.succ (next_oid store)).
Proof.
  intros Hdb Hup Hstr.
  eexists _, _, _. split; [apply (run_create_available c w store Hdb Hup)|].
  split.
  { apply (run_create_available c _
             {| db_name := db_name store;
                outage := outage store;
                collections :=
                  <[created_in c :=
                      (documents_of store (created_in c)
                       ++ [<["_id" := VObjectId (next_oid store)]> (dumped c)])%list]>
                    (collections store);
                next_oid := N.succ (next_oid store) |}); [reflexivity|exact Hup]. }
  split.
  { intros Heq. apply Hstr.
    assert (Hid := f_equal (λ m : document, m !! "id") Heq).
    cbn beta in Hid. unfold id_response in Hid. rewrite !lookup_singleton_eq in Hid.
    by injection Hid. }
  split; [reflexivity|]. split.
  - cbn [next_oid outage db_name collections].
    rewrite documents_of_insert.
    unfold documents_of at 1. cbn [collections]. rewrite lookup_insert_eq. cbn [default].
    by rewrite <- app_assoc.
  - intros [= Heq]. lia.
Qed.

(** ** What the diagnostic reports *)



End Gateway.

(** * The statements at work

    Each statement with hypotheses is applied here to a concrete request on
    the store of [demo_world]; the claims that the code does not meet are
    refuted on concrete requests. *)

#[local] Existing Instance demo_platform.

(** C1 on a payload priced [-1]. *)
Lemma create_product_rejects_negative_price_witness :
  ∃ errors,
    POST_products (VDict negative_price_payload) demo_world
    = (Raises (RequestValidationError errors), demo_world)
    ∧ ErrorDetails [Key "body"; Key "price"] greater_than_equal (VFloat (-1)) ∈ errors.
Proof.
  apply (create_product_rejects_negative_price negative_price_payload
           (VFloat (-1)) (-1)%float demo_world); reflexivity.
Defined.

(** The same payload with the integer [-5]: the coercion to a float comes
    first, the bound after it. *)
Example create_product_rejects_negative_integer :
  (POST_products
     (VDict (<["price" := VInt (-5)]> negative_price_payload)) demo_world).1
  = Raises (RequestValidationError
              [ErrorDetails [Key "body"; Key "price"] greater_than_equal (VInt (-5))]).
Proof. vm_compute. reflexivity. Qed.

(** The answer to the payload priced [-1] is a 422.  A price of minus
    infinity is refused as well, but the 422 that quotes it cannot be
    rendered: the answer is a 500. *)
Example create_product_negative_price_status :
  status_of (POST_products (VDict negative_price_payload) demo_world).1 = 422%Z
  ∧ (∃ errors,
       (POST_products (VDict (<["price" := VFloat neg_infinity]> negative_price_payload))
          demo_world).1
       = Raises (RequestValidationError errors))
  ∧ status_of
      (POST_products (VDict (<["price" := VFloat neg_infinity]> negative_price_payload))
         demo_world).1
    = 500%Z.
Proof.
  split; [vm_compute; reflexivity|]. split; [eexists|]; vm_compute; reflexivity.
Qed.

(** C2 on the bounds 10 and 20. *)
Lemma list_products_price_range_witness :
  ∃ docs,
    items_response [demo_product 1 "Blue Shirt" 15; demo_product 4 "Socks" 10;
                    demo_product 5 "Hat" 20]
    = items_response docs
    ∧ ∀ d, d ∈ docs →
        ∃ p, d !! "price" = Some (VFloat p)
             ∧ normalize_id d !! "price" = Some (VFloat p)
             ∧ (10 <=? p)%float = true ∧ (p <=? 20)%float = true.
Proof.
  refine (proj1 (list_products_price_range None None None 10 20 50 demo_world
                   (logged (CallGetDocuments "product"
                              (list_products_query None None None (Some 10%float)
                                 (Some 20%float)) 50) demo_world)
                   _ _)).
  vm_compute. reflexivity.
Defined.

(** The products priced 9.99 and 20.01 are left out, those priced 10 and 20
    are in: the bounds are inclusive. *)
Example list_products_between_10_and_20 :
  (list_products None None None (Some 10%float) (Some 20%float) 50 demo_world).1
  = Returns (items_response [demo_product 1 "Blue Shirt" 15; demo_product 4 "Socks" 10;
                             demo_product 5 "Hat" 20]).
Proof. vm_compute. reflexivity. Qed.

(** C3, refuted twice over.  The pattern ["."] returns the product titled
    "Pants", and ["."] is not a substring of "Pants"; and with a limit of 1
    the search for ["shirt"] returns "Blue Shirt" alone, although "SHIRTS" is
    stored and has ["shirt"] as a case-insensitive substring. *)
Lemma list_products_text_not_substring :
  (∃ docs w' d,
      list_products (Some ".") None None None None 50 demo_world
      = (Returns (items_response docs), w')
      ∧ d ∈ docs
      ∧ d !! "title" = Some (VStr "Pants")
      ∧ ¬ substring_ci "." "Pants")
  ∧ (∃ docs w' d,
      list_products (Some "shirt") None None None None 1 demo_world
      = (Returns (items_response docs), w')
      ∧ d ∈ documents_of demo_db "product"
      ∧ d !! "title" = Some (VStr "SHIRTS")
      ∧ substring_ci "shirt" "SHIRTS"
      ∧ d ∉ docs).
Proof.
  split.
  - exists [demo_product 1 "Blue Shirt" 15; demo_product 2 "SHIRTS" 9.99;
            demo_product 3 "Pants" 20.01; demo_product 4 "Socks" 10;
            demo_product 5 "Hat" 20],
      (logged (CallGetDocuments "product"
                 (list_products_query (Some ".") None None None None) 50) demo_world),
      (demo_product 3 "Pants" 20.01).
    split; [vm_compute; reflexivity|]. split.
    + do 2 apply list_elem_of_further. apply list_elem_of_here.
    + split; [vm_compute; reflexivity|].
      intros Hsub. apply search_plain_literals in Hsub. vm_compute in Hsub.
      discriminate Hsub.
  - exists [demo_product 1 "Blue Shirt" 15],
      (logged (CallGetDocuments "product"
                 (list_products_query (Some "shirt") None None None None) 1) demo_world),
      (demo_product 2 "SHIRTS" 9.99).
    split; [vm_compute; reflexivity|]. split.
    + change (documents_of demo_db "product")
        with [demo_product 1 "Blue Shirt" 15; demo_product 2 "SHIRTS" 9.99;
              demo_product 3 "Pants" 20.01; demo_product 4 "Socks" 10;
              demo_product 5 "Hat" 20].
      apply list_elem_of_further, list_elem_of_here.
    + split; [vm_compute; reflexivity|]. split.
      * apply search_plain_literals. vm_compute. reflexivity.
      * intros Hin. apply list_elem_of_singleton in Hin.
        apply (f_equal (λ d : document, d !! "title")) in Hin.
        vm_compute in Hin. discriminate Hin.
Qed.

(** C3, as amended, on ["shirt"]. *)
Lemma list_products_text_search_witness :
  ∃ (others all : document → bool) docs w',
    query_pred (list_products_query None None None None None) = Some others
    ∧ query_pred (list_products_query (Some "shirt") None None None None) = Some all
    ∧ (∀ d, all d = true
            ↔ others d = true
              ∧ ("shirt" = "" ∨ ∃ t, d !! "title" = Some (VStr t) ∧ substring_ci "shirt" t))
    ∧ list_products (Some "shirt") None None None None 50 demo_world
      = (Returns {[ "items" := VList (VDict <$> (normalize_id <$> docs)) ]}, w')
    ∧ (∀ d, d ∈ docs → d ∈ documents_of demo_db "product" ∧ all d = true)
    ∧ ((List.length (List.filter all (documents_of demo_db "product")) ≤ Z.to_nat 50)%nat →
       ∀ d, d ∈ documents_of demo_db "product" → all d = true → d ∈ docs).
Proof.
  apply (list_products_text_search "shirt" None None None None 50 demo_world demo_db);
    reflexivity.
Defined.

(** The search for ["shirt"] finds "Blue Shirt" and "SHIRTS" and not
    "Pants". *)
Example list_products_shirt :
  (list_products (Some "shirt") None None None None 50 demo_world).1
  = Returns (items_response [demo_product 1 "Blue Shirt" 15; demo_product 2 "SHIRTS" 9.99]).
Proof. vm_compute. reflexivity. Qed.

(** A limit below the number of matches leaves a matching product out. *)
Example list_products_shirt_limit_1 :
  (list_products (Some "shirt") None None None None 1 demo_world).1
  = Returns (items_response [demo_product 1 "Blue Shirt" 15]).
Proof. vm_compute. reflexivity. Qed.

(** C4, refuted on a stored field named [id]: the product is stored with
    [id] = ["sku-7"], and the item that comes back for it has the string form
    of its identifier there. *)
Lemma listed_document_id_overwritten :
  ∃ item w',
    labelled_product ∈ documents_of
                         {| db_name := AttrValue "shop"; outage := None;
                            collections := {[ "product" := [labelled_product] ]};
                            next_oid := 8 |} "product"
    ∧ run_list (ListProducts None None None None None 50) labelled_shop
      = (Returns {[ "items" := VList [VDict item] ]}, w')
    ∧ labelled_product !! "id" = Some (VStr "sku-7")
    ∧ item !! "id" = Some (VStr "000000000000000000000007")
    ∧ item !! "title" = labelled_product !! "title".
Proof.
  eexists _, _. split; [apply list_elem_of_here|].
  split; [vm_compute; reflexivity|]. repeat split; vm_compute; reflexivity.
Qed.

(** C4, as amended, on the unfiltered listing of the products. *)
Lemma listed_documents_normalized_witness :
  ∃ store docs,
    db demo_world = Some store
    ∧ get_documents "product" ∅ 50 demo_world
      = (Returns docs, logged (CallGetDocuments "product" ∅ 50) demo_world)
    ∧ (∀ d, d ∈ docs → d ∈ documents_of store "product")
    ∧ items_response (documents_of demo_db "product")
      = {[ "items" := VList (VDict <$> (normalize_id <$> docs)) ]}
    ∧ ∀ d, d ∈ docs →
        (∀ oid, d !! "_id" = Some oid →
                normalize_id d !! "_id" = None
                ∧ normalize_id d !! "id" = Some (VStr (py_str oid)))
        ∧ (d !! "_id" = None → normalize_id d = d)
        ∧ (∀ k, k ≠ "_id" → k ≠ "id" → normalize_id d !! k = d !! k)
        ∧ (d !! "id" = None →
           (∀ k v, k ≠ "_id" → d !! k = Some v → normalize_id d !! k = Some v)
           ∧ ∀ k v, normalize_id d !! k = Some v → k = "id" ∨ d !! k = Some v).
Proof.
  refine (proj1 listed_documents_normalized (ListProducts None None None None None 50)
            demo_world (logged (CallGetDocuments "product" ∅ 50) demo_world) _ _).
  vm_compute. reflexivity.
Defined.

(** The first listed product: [_id] is gone, [id] is its string form, the
    fields are those that were stored. *)
Example list_products_first_item :
  normalize_id (demo_product 1 "Blue Shirt" 15)
  = <["id" := VStr "000000000000000000000001"]>
      (model_dump (Product.Build "Blue Shirt" None 15 "clothing" None None true)).
Proof. vm_compute. reflexivity. Qed.

(** C5 where no connection was established, on a list operation. *)
Lemma data_operations_fail_when_store_unavailable_witness :
  ∃ e w', run_call (ListCall (ListCategories 100)) unconfigured_world = (Raises e, w')
          ∧ (500 ≤ status_of (run_call (ListCall (ListCategories 100)) unconfigured_world).1
             < 600)%Z
          ∧ db w' = db unconfigured_world.
Proof.
  apply (data_operations_fail_when_store_unavailable (ListCall (ListCategories 100))
           unconfigured_world).
  exact I.
Defined.

(** The same for a create operation while the store cannot be reached. *)
Example create_product_offline :
  status_of
    (run_call (CreateCall (CreateProduct
                 (Product.Build "Blue Shirt" None 15 "clothing" None None true)))
       offline_world).1
  = 500%Z.
Proof. vm_compute. reflexivity. Qed.

Example list_products_unconfigured :
  (list_products None None None None None 50 unconfigured_world).1
  = Raises (HTTPException 500 "Database unavailable").
Proof. vm_compute. reflexivity. Qed.

(** C6 on the unconfigured store. *)
Example test_database_unconfigured :
  ∃ response,
    (test_database unconfigured_world).1 = Returns response
    ∧ response !! "database" = Some (VStr "⚠️  Available but not initialized")
    ∧ response !! "connection_status" = Some (VStr "Not Connected")
    ∧ response !! "database_url" = Some (VStr "❌ Not Set").
Proof. eexists. split; [reflexivity|]. repeat split; vm_compute; reflexivity. Qed.

Example test_database_offline :
  ∃ response,
    (test_database offline_world).1 = Returns response
    ∧ response !! "database"
      = Some (VStr "⚠️  Connected but Error: connection refused").
Proof. eexists. split; [reflexivity|]. vm_compute. reflexivity. Qed.

(** C7 on the address [a@b.com]. *)
Lemma get_wishlist_user_email_witness :
  ∃ docs,
    items_response [demo_wish 6 "a@b.com" "1"] = items_response docs
    ∧ ∀ d, d ∈ docs →
        d !! "user_email" = Some (VStr "a@b.com")
        ∧ normalize_id d !! "user_email" = Some (VStr "a@b.com").
Proof.
  refine (proj2 get_wishlist_user_email "a@b.com" None demo_world
            (logged (CallGetDocuments "wishlist" {[ "user_email" := Equals "a@b.com" ]} 100)
               demo_world) _ _).
  vm_compute. reflexivity.
Defined.

(** Neither the entry of [A@B.COM] nor that of [xa@b.com] is returned. *)
Example get_wishlist_exact :
  (GET_wishlist (Some "a@b.com") None demo_world).1
  = Returns (items_response [demo_wish 6 "a@b.com" "1"]).
Proof. vm_compute. reflexivity. Qed.

(** C8, refuted: an order paid by ["bitcoin"] is accepted. *)
Lemma create_order_accepts_bitcoin :
  ∃ r w',
    bitcoin_order_payload !! "payment_method" = Some (VStr "bitcoin")
    ∧ POST_orders (VDict bitcoin_order_payload) demo_world = (Returns r, w')
    ∧ "bitcoin" ≠ "online" ∧ "bitcoin" ≠ "cod".
Proof.
  eexists _, _. split; [vm_compute; reflexivity|].
  split; [vm_compute; reflexivity|]. split; discriminate.
Qed.

(** C8, as amended, on the order paid by ["cod"]. *)
Lemma create_order_accepts_any_payment_method_witness :
  ∃ pm order,
    empty_order_payload !! "payment_method" = Some (VStr pm)
    ∧ validate_Order empty_order_payload = Valid order
    ∧ Order.payment_method order = pm
    ∧ ∀ pm' : string, ∃ r' w'',
        POST_orders (VDict (<["payment_method" := VStr pm']> empty_order_payload)) demo_world
        = (Returns r', w'').
Proof.
  destruct (create_order_available empty_order demo_world demo_db eq_refl eq_refl)
    as (w' & Hrun & _).
  apply (create_order_accepts_any_payment_method empty_order_payload demo_world w'
           (id_response (py_str (VObjectId (next_oid demo_db))))).
  rewrite (POST_orders_Valid _ _ _ validate_empty_order). exact Hrun.
Defined.

(** C9 on the store of [demo_world]. *)
Lemma create_order_accepts_empty_items_witness :
  ∃ data order w',
    data !! "items" = Some (VList [])
    ∧ validate_Order data = Valid order
    ∧ Order.items order = []
    ∧ POST_orders (VDict data) demo_world
      = (Returns (id_response (py_str (VObjectId (next_oid demo_db)))), w')
    ∧ ∃ d', db w' = Some d'
            ∧ documents_of d' "order"
              = (documents_of demo_db "order"
                 ++ [<["_id" := VObjectId (next_oid demo_db)]> (model_dump order)])%list.
Proof.
  apply (create_order_accepts_empty_items demo_world demo_db); reflexivity.
Defined.

(** C10 on the empty string and on zero. *)
Example list_products_query_empty_q_zero_min :
  list_products_query (Some "") (Some "") (Some "") (Some 0%float) None
  = {[ "price" := Range (RangeOps (Some 0%float) None) ]}.
Proof. vm_compute. reflexivity. Qed.

(** C6 while the store cannot be reached: the message of the exception is
    reported behind the prefix, within 50 characters. *)
Lemma test_database_never_raises_witness :
  ∃ response w',
    test_database offline_world = (Returns response, w')
    ∧ response !! "database"
      = Some (VStr ("⚠️  Connected but Error: " +:+ substring 0 50 "connection refused"))
    ∧ (String.length (substring 0 50 "connection refused") ≤ 50)%nat.
Proof.
  destruct (test_database_never_raises offline_world)
    as (response & w' & status & Hrun & _ & Hstatus & _ & _ & Hlisting & _).
  destruct (Hlisting _ (Exc "ServerSelectionTimeoutError" "connection refused") eq_refl)
    as [-> Hlen]; [intros e' He'; discriminate He'|reflexivity|].
  exists response, w'. auto.
Defined.

(** A [name] that raises an [AttributeError] is a name that [hasattr] does
    not find: the diagnostic goes on and reports a working connection. *)
Example test_database_nameless :
  ∃ response,
    (test_database nameless_world).1 = Returns response
    ∧ response !! "database" = Some (VStr "✅ Connected & Working")
    ∧ response !! "connection_status" = Some (VStr "Connected").
Proof. eexists. split; [reflexivity|]. split; vm_compute; reflexivity. Qed.

(** C10 on the empty string and on zero. *)
Lemma list_products_query_empty_and_zero_witness :
  list_products_query (Some "") (Some "") (Some "") (Some 0%float) None
  = list_products_query None None None (Some 0%float) None
  ∧ list_products_query None None None (Some 0%float) None !! "price"
    = Some (Range (RangeOps (Some 0%float) None))
  ∧ list_products_query None None None None None !! "price" = None.
Proof.
  destruct list_products_query_empty_and_zero as (Hq & Hcategory & Hbrand & Hmin & _ & Hnone).
  split; [|split].
  - by rewrite Hq, Hcategory, Hbrand.
  - apply Hmin.
  - by apply Hnone.
Defined.


(** The round trip on a new product in the store of [demo_world]. *)
Lemma create_then_list_roundtrip_witness :
  ∃ new_id w1 response w2 items item,
    run_create (CreateProduct scarf) demo_world = (Returns {[ "id" := VStr new_id ]}, w1)
    ∧ run_list (ListProducts None None None None None 50) w1 = (Returns response, w2)
    ∧ response !! "items" = Some (VList items)
    ∧ VDict item ∈ items
    ∧ item = <["id" := VStr new_id]> (model_dump scarf)
    ∧ item !! "id" = Some (VStr new_id)
    ∧ item !! "_id" = None
    ∧ ∀ k v, model_dump scarf !! k = Some v → item !! k = Some v.
Proof.
  apply (create_then_list_roundtrip (CreateProduct scarf) 50 demo_world demo_db);
    [reflexivity|reflexivity|].
  vm_compute. lia.
Defined.

(** The limit on the five products of [demo_world]. *)
Lemma listing_within_limit_witness :
  ∃ docs limit,
    items_response [demo_product 1 "Blue Shirt" 15; demo_product 2 "SHIRTS" 9.99]
    = items_response docs
    ∧ limit = 2%Z
    ∧ (List.length docs ≤ Z.to_nat limit)%nat.
Proof.
  refine (listing_within_limit (ListProducts None None None None None 2) demo_world
            (logged (CallGetDocuments "product" ∅ 2) demo_world) _ _).
  vm_compute. reflexivity.
Defined.


(** The items of an order are validated one by one: a quantity of 0 and a
    negative unit price are reported at their place in the list. *)
Example create_order_rejects_bad_items :
  (POST_orders
     (VDict (<["items" :=
                 VList [VDict {[ "product_id" := VStr "1"; "title" := VStr "Hat";
                                 "price" := VFloat 20; "quantity" := VInt 0 ]};
                        VDict {[ "product_id" := VStr "2"; "title" := VStr "Socks";
                                 "price" := VFloat (-10); "quantity" := VInt 1 ]}]]>
               empty_order_payload)) demo_world).1
  = Raises (RequestValidationError
              [ErrorDetails [Key "body"; Key "items"; Idx 0; Key "quantity"]
                 greater_than_equal (VInt 0);
               ErrorDetails [Key "body"; Key "items"; Idx 1; Key "price"]
                 greater_than_equal (VFloat (-10))]).
Proof. vm_compute. reflexivity. Qed.

(** ** The further properties at work *)


(** X4 on the payload priced [-1]. *)
Lemma validation_error_leaves_world_witness :
  (serve (ReqPostProducts (VDict negative_price_payload)) demo_world).2 = demo_world
  ∧ accepted (ReqPostProducts (VDict negative_price_payload)) = None
  ∧ listing (ReqPostProducts (VDict negative_price_payload)) = None
  ∧ ∃ errors,
      (serve (ReqPostProducts (VDict negative_price_payload)) demo_world).1
      = Raises (RequestValidationError errors).
Proof.
  apply (validation_error_leaves_world (ReqPostProducts (VDict negative_price_payload))
           demo_world).
  vm_compute. reflexivity.
Defined.

(** X7 on a new category in the empty store. *)
Lemma successful_create_appends_one_witness :
  ∃ store store',
    db empty_shop = Some store ∧ outage store = None
    ∧ db (serve (ReqPostCategories (VDict hats_payload)) empty_shop).2 = Some store'
    ∧ documents_of store' "category"
      = (documents_of store "category"
         ++ [<["_id" := VObjectId (next_oid store)]>
               (model_dump (Category.Build "Hats" "hats"))])%list
    ∧ (∀ other, other ≠ "category" → documents_of store' other = documents_of store other)
    ∧ next_oid store' = N.succ (next_oid store)
    ∧ id_response "000000000000000000000000"
      = id_response (py_str (VObjectId (next_oid store))).
Proof.
  apply (successful_create_appends_one (ReqPostCategories (VDict hats_payload)) empty_shop
           (CreateCategory (Category.Build "Hats" "hats"))
           (id_response "000000000000000000000000")); vm_compute; reflexivity.
Defined.

Lemma empty_shop_fresh : fresh_ids empty_shop.
Proof.
  intros collection docs d Hdocs. cbn [collections] in Hdocs.
  by rewrite lookup_empty in Hdocs.
Qed.

Lemma empty_shop_conforming : conforming empty_shop.
Proof.
  intros collection docs d Hdocs. cbn [collections] in Hdocs.
  by rewrite lookup_empty in Hdocs.
Qed.

(** X8 after two creations and a listing in the empty store. *)
Lemma identifiers_stay_fresh_witness :
  fresh_ids (after [ReqPostCategories (VDict hats_payload);
                    ReqPostOrders (VDict empty_order_payload);
                    ReqGetCategories None] empty_shop)
  ∧ ∀ store collection docs d,
      db (after [ReqPostCategories (VDict hats_payload);
                 ReqPostOrders (VDict empty_order_payload);
                 ReqGetCategories None] empty_shop) = Some store →
      collections store !! collection = Some docs → d ∈ docs →
      d !! "_id" ≠ Some (VObjectId (next_oid store)).
Proof. apply identifiers_stay_fresh, empty_shop_fresh. Defined.

(** X9 on the category [clothing] with a lower bound of 10. *)
Lemma list_products_filters_hold_together_witness :
  ∃ docs,
    items_response [demo_product 1 "Blue Shirt" 15; demo_product 3 "Pants" 20.01;
                    demo_product 4 "Socks" 10; demo_product 5 "Hat" 20]
    = items_response docs
    ∧ ∀ d, d ∈ docs →
        (∀ c, truthy (Some "clothing") = Some c → d !! "category" = Some (VStr c))
        ∧ (∀ b, truthy None = Some b → d !! "brand" = Some (VStr b))
        ∧ (∀ lo, Some 10%float = Some lo →
             ∃ p, d !! "price" = Some (VFloat p) ∧ (lo <=? p)%float = true)
        ∧ (∀ hi, None = Some hi →
             ∃ p, d !! "price" = Some (VFloat p) ∧ (p <=? hi)%float = true).
Proof.
  refine (list_products_filters_hold_together None (Some "clothing") None (Some 10%float)
            None 50 demo_world
            (logged (CallGetDocuments "product"
                       (list_products_query None (Some "clothing") None (Some 10%float) None)
                       50) demo_world) _ _).
  vm_compute. reflexivity.
Defined.

(** X10 on the store with one order. *)
Lemma list_orders_user_email_witness :
  ∃ store docs,
    db one_order_shop = Some store
    ∧ items_response [<["_id" := VObjectId 0]> (model_dump empty_order)]
      = items_response docs
    ∧ ∀ d, d ∈ docs →
        d ∈ documents_of store "order"
        ∧ d !! "user_email" = Some (VStr "a@b.com")
        ∧ normalize_id d !! "user_email" = Some (VStr "a@b.com").
Proof.
  refine (proj2 list_orders_user_email "a@b.com" None one_order_shop
            (logged (CallGetDocuments "order" {[ "user_email" := Equals "a@b.com" ]} 50)
               one_order_shop) _ _).
  vm_compute. reflexivity.
Defined.

(** X11 on an unbalanced parenthesis. *)
Lemma list_products_rejected_pattern_witness :
  ∃ w',
    list_products (Some "(") None None None None 50 demo_world
    = (Raises (Other StoreOperationError), w')
    ∧ status_of (list_products (Some "(") None None None None 50 demo_world).1 = 500%Z
    ∧ db w' = db demo_world.
Proof.
  apply (list_products_rejected_pattern "(" None None None None 50 demo_world demo_db);
    [discriminate|reflexivity|reflexivity|reflexivity].
Defined.

(** X12 after the same requests. *)
Lemma requests_keep_store_conforming_witness :
  conforming (after [ReqPostCategories (VDict hats_payload);
                     ReqPostOrders (VDict empty_order_payload);
                     ReqGetCategories None] empty_shop)
  ∧ ∀ r c, accepted r = Some c → valid_record c.
Proof. apply requests_keep_store_conforming, empty_shop_conforming. Defined.

(** X13 on a product. *)
Lemma validate_model_dump_witness : validate_Product (model_dump scarf) = Valid scarf.
Proof.
  destruct validate_model_dump as (_ & _ & Hproduct & _).
  apply Hproduct. reflexivity.
Defined.

(** X14 on the order without a status. *)
Lemma schema_defaults_witness : Order.status empty_order = "pending".
Proof.
  destruct schema_defaults as [_ Horder].
  destruct (Horder empty_order_payload empty_order validate_empty_order) as [Hpending _].
  apply Hpending. reflexivity.
Defined.

(** X15: an [_id] in the body of a new category. *)
Lemma unknown_keys_are_ignored_witness :
  POST_categories (VDict (<["_id" := VStr "chosen"]> hats_payload)) empty_shop
  = POST_categories (VDict hats_payload) empty_shop.
Proof.
  destruct (unknown_keys_are_ignored "_id" (VStr "chosen") hats_payload)
    as (_ & Hcategory & _).
  destruct Hcategory as [_ Hrun].
  { intros Hin.
    repeat (apply elem_of_cons in Hin as [Hin|Hin]; [discriminate Hin|]).
    by apply elem_of_nil in Hin. }
  apply (proj2 (Hrun empty_shop) (Category.Build "Hats" "hats")). reflexivity.
Defined.

(** A body that is refused is another matter: the error for the missing
    [title] quotes the whole body, and with an infinite number under the
    unknown key the 422 cannot be rendered. *)
Example unknown_key_in_refused_body :
  status_of (POST_products (VDict untitled_payload) demo_world).1 = 422%Z
  ∧ status_of
      (POST_products (VDict (<["weight" := VFloat infinity]> untitled_payload))
         demo_world).1
    = 500%Z.
Proof. split; vm_compute; reflexivity. Qed.

(** X16 on the products without a [limit]. *)
Lemma default_limits_witness :
  (∃ docs,
      items_response (documents_of demo_db "product") = items_response docs
      ∧ (List.length docs ≤ Z.to_nat 50)%nat)
  ∧ 50%Z = default 50%Z None.
Proof.
  refine (default_limits (ReqGetProducts None None None None None None) demo_world
            (items_response (documents_of demo_db "product")) _
            (ListProducts None None None None None 50) eq_refl).
  vm_compute. reflexivity.
Defined.

(** X18 on the same product, twice. *)
Lemma create_twice_stores_two_witness :
  ∃ w1 w2 store2,
    run_create (CreateProduct scarf) demo_world
    = (Returns (id_response (py_str (VObjectId (next_oid demo_db)))), w1)
    ∧ run_create (CreateProduct scarf) w1
      = (Returns (id_response (py_str (VObjectId (N.succ (next_oid demo_db))))), w2)
    ∧ id_response (py_str (VObjectId (next_oid demo_db)))
      ≠ id_response (py_str (VObjectId (N.succ (next_oid demo_db))))
    ∧ db w2 = Some store2
    ∧ documents_of store2 "product"
      = (documents_of demo_db "product"
         ++ [<["_id" := VObjectId (next_oid demo_db)]> (model_dump scarf);
             <["_id" := VObjectId (N.succ (next_oid demo_db))]> (model_dump scarf)])%list
    ∧ VObjectId (next_oid demo_db) ≠ VObjectId (N.succ (next_oid demo_db)).
Proof.
  apply (create_twice_stores_two (CreateProduct scarf) demo_world demo_db);
    [reflexivity|reflexivity|].
  intros Heq. vm_compute in Heq. discriminate Heq.
Defined.

(** X3: a product with an infinite price is accepted and stored; from then
    on the unfiltered listing of the products returns and is a 500. *)
Example infinite_price_breaks_listing :
  status_of (serve (ReqPostProducts (VDict infinite_price_payload)) empty_shop).1 = 200%Z
  ∧ (∃ response,
       (serve (ReqGetProducts None None None None None None)
          (after [ReqPostProducts (VDict infinite_price_payload)] empty_shop)).1
       = Returns response)
  ∧ status_of
      (serve (ReqGetProducts None None None None None None)
         (after [ReqPostProducts (VDict infinite_price_payload)] empty_shop)).1
    = 500%Z.
Proof.
  split; [vm_compute; reflexivity|]. split; [eexists|]; vm_compute; reflexivity.
Qed.
